(** * randgen: the weighted discrete sampler of [custom_rngs.py]

    A shallow embedding of the class [RandomGen] and of the Python and numpy
    operations it calls, followed by the properties of the sampler.

    Numbers.  A Python [int] is a [Z].  A Python [float] is a rational [Q]
    with real arithmetic: sums, quotients and comparisons are exact, the
    rounding of IEEE doubles is not part of this model (and neither are
    [nan] and the infinities).  Equalities between probabilities are
    therefore stated with [==] ([Qeq]).

    Where the result of the arithmetic itself is at stake - the
    probabilities that [remove] leaves - the method is given a second
    time, [remove_r], with every quotient and sum passed through a
    rounding function; [binary64] is the rounding of the machine, and
    with no rounding [remove_r] is [remove].

    Effects.  A method that mutates the instance is a function from the
    instance to a result and the instance afterwards; an exception leaves
    the instance as it was when the [raise] ran. *)

From Stdlib Require Import String Ascii DecimalString.
From Stdlib Require Import ZArith QArith Qabs Bool PeanoNat List.
From Stdlib Require Import Lia Lqa.
Import ListNotations.

Local Open Scope string_scope.
Local Open Scope Q_scope.

(** ** Python values *)

(** The outcomes of a sampler: [int | float], each with its own subtype. *)
Inductive num : Type :=
| PyInt (z : Z)
| PyFloat (q : Q).

(** The number a value stands for; Python compares an [int] with a [float]
    by that number. *)
Definition num_val (x : num) : Q :=
  match x with
  | PyInt z => inject_Z z
  | PyFloat q => q
  end.

(** [x == y] on Python numbers. *)
Definition num_eqb (x y : num) : bool := Qeq_bool (num_val x) (num_val y).

(** What a caller may pass where the code expects a count. *)
Inductive pyobj : Type :=
| ONum (n : num)
| OBool (b : bool)
| OStr (s : string)
| ONone.

(** [isinstance(k, int)], with the integer when it holds: [bool] is a
    subclass of [int]. *)
Definition as_int (k : pyobj) : option Z :=
  match k with
  | ONum (PyInt z) => Some z
  | OBool b => Some (if b then 1%Z else 0%Z)
  | _ => None
  end.

(** The exceptions the module raises, by class, with their message. *)
Inductive exn : Type :=
| ValueError (msg : string)
| IndexError (msg : string)
| KeyError (key : num)
| TypeError (msg : string).

(** [str(z)] for an integer. *)
Definition str_of_int (z : Z) : string := NilZero.string_of_int (Z.to_int z).

(** ** The built-in and numpy functions the class calls *)

Definition Qlt_bool (x y : Q) : bool := negb (Qle_bool y x).

(** [len(l)]. *)
Definition len {A : Type} (l : list A) : Z := Z.of_nat (length l).

(** [x in l] for a list of numbers. *)
Definition py_in (x : num) (l : list num) : bool := existsb (num_eqb x) l.

(** The elements of [set(l)], one for each class of equal elements; only
    its size is used. *)
Fixpoint py_set (l : list num) : list num :=
  match l with
  | [] => []
  | x :: t => let s := py_set t in if py_in x s then s else x :: s
  end.

(** [sum(l)]: a left fold from [0]. *)
Definition py_sum (l : list Q) : Q := fold_left Qplus l 0.

(** [numpy.cumsum(l)]: the running sums. *)
Fixpoint cumsum_from (acc : Q) (l : list Q) : list Q :=
  match l with
  | [] => []
  | p :: t => (acc + p) :: cumsum_from (acc + p) t
  end.

Definition cumsum (l : list Q) : list Q :=
  match l with
  | [] => []
  | p :: t => p :: cumsum_from p t
  end.

(** ** The arithmetic of the machine *)

(** The integer nearest to [n / d] for [n >= 0] and [d > 0], the even one
    on a tie. *)
Definition round_half_even (n d : Z) : Z :=
  let m := (n / d)%Z in
  match (2 * (n mod d) ?= d)%Z with
  | Lt => m
  | Gt => (m + 1)%Z
  | Eq => if Z.even m then m else (m + 1)%Z
  end.

(** [(n / d) * 2^(-e)] as a fraction. *)
Definition scaled (n d e : Z) : Z * Z :=
  if (0 <=? e)%Z then (n, (d * 2 ^ e)%Z) else ((n * 2 ^ (- e))%Z, d).

(** The double nearest to [q], ties to even: an integer below [2^53]
    times a power of two that is at least [2^-1074].  It is what an IEEE
    754 binary64 operation returns when its exact result is [q], and what
    Python reads a decimal literal as.  Results beyond the largest double
    (infinities) are not modelled. *)
Definition binary64 (q : Q) : Q :=
  let n := Z.abs (Qnum q) in
  let d := Zpos (Qden q) in
  if (n =? 0)%Z then 0
  else
    let e0 := (Z.log2 n - Z.log2 d - 52)%Z in
    let e1 := let (sn, sd) := scaled n d e0 in
              if (sn / sd <? 2 ^ 52)%Z then (e0 - 1)%Z else e0 in
    let e := Z.max e1 (-1074) in
    let (sn, sd) := scaled n d e in
    let m := round_half_even sn sd in
    let mag := if (0 <=? e)%Z then inject_Z (m * 2 ^ e)
               else Qmake m (Z.to_pos (2 ^ (- e))) in
    if (Qnum q <? 0)%Z then - mag else mag.

(** [numpy.cumsum(l)] with every addition rounded by [rnd]. *)
Fixpoint cumsum_from_r (rnd : Q -> Q) (acc : Q) (l : list Q) : list Q :=
  match l with
  | [] => []
  | p :: t => rnd (acc + p) :: cumsum_from_r rnd (rnd (acc + p)) t
  end.

Definition cumsum_r (rnd : Q -> Q) (l : list Q) : list Q :=
  match l with
  | [] => []
  | p :: t => p :: cumsum_from_r rnd p t
  end.

(** [numpy.isclose(a, b)] with numpy's default tolerances:
    [|a - b| <= atol + rtol * |b|]. *)
Definition rtol : Q := 1 # 100000.
Definition atol : Q := 1 # 100000000.

Definition isclose (a b : Q) : bool :=
  Qle_bool (Qabs (a - b)) (atol + rtol * Qabs b).

(** [numpy.searchsorted(a, v)] with the default [side='left']: numpy's
    binary search for the first position whose element is not below [v].
    [fuel] bounds the number of halvings. *)
Fixpoint binsearch_left (fuel : nat) (a : list Q) (key : Q) (lo hi : nat) : nat :=
  match fuel with
  | O => lo
  | S fuel' =>
      if (lo <? hi)%nat then
        let mid := (lo + (hi - lo) / 2)%nat in
        if Qlt_bool (nth mid a 0) key
        then binsearch_left fuel' a key (S mid) hi
        else binsearch_left fuel' a key lo mid
      else lo
  end.

Definition searchsorted (a : list Q) (v : Q) : nat :=
  binsearch_left (length a) a v 0 (length a).

(** The position a Python index denotes in a sequence of length [n]:
    negative indices count from the end. *)
Definition norm_index (n : nat) (i : Z) : option nat :=
  if (0 <=? i)%Z && (i <? Z.of_nat n)%Z then Some (Z.to_nat i)
  else if (- Z.of_nat n <=? i)%Z && (i <? 0)%Z then Some (Z.to_nat (Z.of_nat n + i))
  else None.

(** [l[i]]. *)
Definition list_getitem {A : Type} (l : list A) (i : Z) : exn + A :=
  match norm_index (length l) i with
  | Some k =>
      match nth_error l k with
      | Some x => inr x
      | None => inl (IndexError "list index out of range")
      end
  | None => inl (IndexError "list index out of range")
  end.

(** The list without its element at position [k]. *)
Fixpoint remove_at {A : Type} (k : nat) (l : list A) : list A :=
  match l, k with
  | [], _ => []
  | _ :: t, O => t
  | x :: t, S k' => x :: remove_at k' t
  end.

(** [l.pop(i)]: the element and the shortened list. *)
Definition list_pop {A : Type} (l : list A) (i : Z) : exn + (A * list A) :=
  match norm_index (length l) i with
  | Some k =>
      match nth_error l k with
      | Some x => inr (x, remove_at k l)
      | None => inl (IndexError "pop index out of range")
      end
  | None =>
      inl (IndexError (match l with
                       | [] => "pop from empty list"
                       | _ => "pop index out of range"
                       end))
  end.

(** [l.index(x)]: the position of the first element equal to [x]. *)
Fixpoint list_index (l : list num) (x : num) : option nat :=
  match l with
  | [] => None
  | y :: t => if num_eqb y x then Some O else option_map S (list_index t x)
  end.

(** [l.remove(x)]: the list without the first element equal to [x]. *)
Fixpoint list_remove (l : list num) (x : num) : option (list num) :=
  match l with
  | [] => None
  | y :: t => if num_eqb y x then Some t
              else option_map (cons y) (list_remove t x)
  end.

(** [dict(zip(keys, vals))[item]]: a later pair replaces an earlier one with
    an equal key. *)
Fixpoint dict_zip_lookup (keys : list num) (vals : list Q) (item : num)
  : option Q :=
  match keys, vals with
  | k :: keys', v :: vals' =>
      match dict_zip_lookup keys' vals' item with
      | Some v' => Some v'
      | None => if num_eqb k item then Some v else None
      end
  | _, _ => None
  end.

(** A [dict] from numbers to probabilities, as the list of its items in
    insertion order.  The keys of a [dict] are pairwise different. *)
Definition pydict : Type := list (num * Q).

(** [list(d.keys())] and [list(d.values())]. *)
Definition dict_keys (d : pydict) : list num := map fst d.
Definition dict_values (d : pydict) : list Q := map snd d.

(** [d[k]]: the value stored under a key equal to [k], [None] for a
    [KeyError]. *)
Fixpoint dict_get (d : pydict) (k : num) : option Q :=
  match d with
  | [] => None
  | (k', v) :: t => if num_eqb k' k then Some v else dict_get t k
  end.

(** ** Properties of sequences used in the statements *)

(** A sequence is non-decreasing when later elements are not smaller. *)
Definition nondecreasing (l : list Q) : Prop :=
  forall i j, (i <= j < length l)%nat -> nth i l 0 <= nth j l 0.

(** [i] is the first position of [a] whose element is at least [key]. *)
Definition first_index_ge (a : list Q) (key : Q) (i : nat) : Prop :=
  (i < length a)%nat /\ key <= nth i a 0 /\
  forall j, (j < i)%nat -> nth j a 0 < key.

(** [i] is the first position of [a] whose element is greater than [key]. *)
Definition first_index_gt (a : list Q) (key : Q) (i : nat) : Prop :=
  (i < length a)%nat /\ key < nth i a 0 /\
  forall j, (j < i)%nat -> nth j a 0 <= key.

(** The values of a sequence are pairwise different. *)
Fixpoint distinct (l : list num) : Prop :=
  match l with
  | [] => True
  | x :: t => py_in x t = false /\ distinct t
  end.

(** ** The random source *)

(** The protocol [Rng]: a state with a uniform draw and a reseed
    operation.  [random] returns the draw and the state after it. *)
Class Rng (Src : Type) : Type := {
  random : Src -> Q * Src;
  seed : Z -> Src -> Src
}.

(** ** The class [RandomGen] *)

Section Sampler.

Context {Src : Type} {rng_ops : Rng Src}.

(** The attributes of an instance. *)
Record RandomGen : Type := mkRandomGen {
  rng : Src;
  _seed : option Z;
  nums : list num;
  probs : list Q;
  cdf : list Q
}.

Definition set_rng (self : RandomGen) (r : Src) : RandomGen :=
  mkRandomGen r (_seed self) (nums self) (probs self) (cdf self).
Definition set_seed (self : RandomGen) (s : option Z) : RandomGen :=
  mkRandomGen (rng self) s (nums self) (probs self) (cdf self).
Definition set_nums (self : RandomGen) (l : list num) : RandomGen :=
  mkRandomGen (rng self) (_seed self) l (probs self) (cdf self).
Definition set_probs (self : RandomGen) (l : list Q) : RandomGen :=
  mkRandomGen (rng self) (_seed self) (nums self) l (cdf self).
Definition set_cdf (self : RandomGen) (l : list Q) : RandomGen :=
  mkRandomGen (rng self) (_seed self) (nums self) (probs self) l.

(** A method body: it runs on an instance, returns a value or raises, and
    leaves an instance behind in both cases. *)
Definition method (A : Type) : Type := RandomGen -> (exn + A) * RandomGen.

Definition ret {A : Type} (x : A) : method A := fun self => (inr x, self).
Definition raise {A : Type} (e : exn) : method A := fun self => (inl e, self).
Definition bind {A B : Type} (m : method A) (f : A -> method B) : method B :=
  fun self =>
    match m self with
    | (inr x, self') => f x self'
    | (inl e, self') => (inl e, self')
    end.
Definition attr {A : Type} (f : RandomGen -> A) : method A :=
  fun self => (inr (f self), self).
Definition assign (f : RandomGen -> RandomGen) : method unit :=
  fun self => (inr tt, f self).
Definition lift {A : Type} (r : exn + A) : method A :=
  fun self => (r, self).

Notation "x <- m ;; k" := (bind m (fun x => k))
  (at level 61, m at next level, right associativity).
Notation "m ;;; k" := (bind m (fun _ => k))
  (at level 61, right associativity).

(** The messages of the [raise] statements, under the names the
    specification gives to the failures. *)
Definition EmptyInputError : exn :=
  ValueError "At least one random number value is required".
Definition DuplicateValueError : exn :=
  ValueError "Values cannot repeat, ambiguous".
Definition LengthMismatchError : exn :=
  ValueError "Inputs not compatible".
Definition InvalidProbabilityError : exn :=
  ValueError "Invalid probability".
Definition InvalidCountError : exn :=
  ValueError "Invalid k: must be a positive integer".
Definition AmbiguousSelectorError : exn :=
  ValueError "To remove element, specify either its value or its index".
Definition SingleElementError : exn :=
  ValueError
    "Cannot remove only one number left. Instead, create a new RandomGen instance without it".
Definition IndexOutOfRangeError (index n_prev : Z) : exn :=
  IndexError ("Index " ++ str_of_int index
              ++ " is out of the valid range for length "
              ++ str_of_int (n_prev - 1) ++ ".").

(** [raise "..."] with a string instead of an exception: Python raises this
    [TypeError] in its place. *)
Definition RaiseNonException : exn :=
  TypeError "exceptions must derive from BaseException".

(** [RandomGen.__init__].  [fresh] is the state in which [random.Random()]
    starts when no [rng] is passed. *)
Definition __init__ (fresh : Src) (random_nums : list num)
    (probabilities : option (list Q)) (seed_arg : option Z)
    (rng_arg : option Src) : exn + RandomGen :=
  let rng0 := match rng_arg with None => fresh | Some r => r end in
  let rng1 := match seed_arg with Some s => seed s rng0 | None => rng0 end in
  let n := length random_nums in
  if (n =? 0)%nat then inl EmptyInputError
  else if (length (py_set random_nums) <? n)%nat then inl DuplicateValueError
  else
    match probabilities with
    | Some (p :: ps) =>
        let probabilities := p :: ps in
        if negb (length probabilities =? length random_nums)%nat
        then inl LengthMismatchError
        else if negb (isclose (py_sum probabilities) 1)
                || existsb (fun p => Qle_bool p 0 || Qlt_bool 1 p) probabilities
        then inl InvalidProbabilityError
        else inr (mkRandomGen rng1 seed_arg random_nums probabilities
                              (cumsum probabilities))
    | _ =>
        let probs0 := repeat (1 / inject_Z (Z.of_nat n)) n in
        inr (mkRandomGen rng1 seed_arg random_nums probs0 (cumsum probs0))
    end.

(** [RandomGen.__getitem__]. *)
Definition __getitem__ (self : RandomGen) (item : num) : exn + Q :=
  match dict_zip_lookup (nums self) (probs self) item with
  | Some p => inr p
  | None => inl (KeyError item)
  end.

(** [RandomGen.__contains__]. *)
Definition __contains__ (self : RandomGen) (item : num) : bool :=
  py_in item (nums self).

(** [RandomGen.__next__]. *)
Definition __next__ : method num :=
  rnum <- (fun self => let (r, s') := random (rng self) in
                       (inr r, set_rng self s')) ;;
  cdf_ <- attr cdf ;;
  let idx := searchsorted cdf_ rnum in
  nums_ <- attr nums ;;
  lift (list_getitem nums_ (Z.of_nat idx)).

(** [RandomGen.next_num]. *)
Definition next_num : method num := __next__.

(** [RandomGen.next_k_nums] is a generator function: calling it runs none
    of its body.  A generator is either not started yet (it holds its
    argument), suspended at the [yield] (it holds the local [k]) or
    finished. *)
Inductive generator : Type :=
| GenCreated (k : pyobj)
| GenSuspended (k : Z)
| GenClosed.

(** What one [next(gen)] gives. *)
Inductive gen_result : Type :=
| Yield (v : num)
| StopIteration
| Raised (e : exn).

Definition next_k_nums (k : pyobj) : generator := GenCreated k.

(** The loop [while k: k -= 1; yield next(self)], run up to its next
    [yield] or to its end. *)
Definition gen_loop (k : Z) (self : RandomGen)
  : (gen_result * generator) * RandomGen :=
  if (k =? 0)%Z then ((StopIteration, GenClosed), self)
  else
    let k := (k - 1)%Z in
    match __next__ self with
    | (inr v, self') => ((Yield v, GenSuspended k), self')
    | (inl e, self') => ((Raised e, GenClosed), self')
    end.

(** [next(gen)]. *)
Definition gen_next (g : generator) (self : RandomGen)
  : (gen_result * generator) * RandomGen :=
  match g with
  | GenCreated k =>
      match as_int k with
      | Some z =>
          if (0 <? z)%Z then gen_loop z self
          else ((Raised InvalidCountError, GenClosed), self)
      | None => ((Raised InvalidCountError, GenClosed), self)
      end
  | GenSuspended k => gen_loop k self
  | GenClosed => ((StopIteration, GenClosed), self)
  end.

(** [list(gen)]: the generator run to its end, at most [fuel] calls of
    [next(gen)]; [None] when the fuel does not suffice. *)
Fixpoint collect (fuel : nat) (g : generator) (self : RandomGen)
  : option ((exn + list num) * RandomGen) :=
  match fuel with
  | O => None
  | S fuel' =>
      match gen_next g self with
      | ((Yield v, g'), self') =>
          match collect fuel' g' self' with
          | Some (inr l, self'') => Some (inr (v :: l), self'')
          | Some (inl e, self'') => Some (inl e, self'')
          | None => None
          end
      | ((StopIteration, _), self') => Some (inr [], self')
      | ((Raised e, _), self') => Some (inl e, self')
      end
  end.

(** [self.probs.pop(index)]. *)
Definition probs_pop (index : Z) : method Q :=
  fun self =>
    match list_pop (probs self) index with
    | inr (p, l) => (inr p, set_probs self l)
    | inl e => (inl e, self)
    end.

(** [self.nums.remove(value)]. *)
Definition nums_remove (value : num) : method unit :=
  fun self =>
    match list_remove (nums self) value with
    | Some l => (inr tt, set_nums self l)
    | None => (inl (ValueError "list.remove(x): x not in list"), self)
    end.

Definition is_none {A : Type} (o : option A) : bool :=
  match o with None => true | Some _ => false end.

(** [RandomGen.remove]. *)
Definition remove (value : option num) (index : option Z) : method unit :=
  if negb (xorb (is_none value) (is_none index))
  then raise AmbiguousSelectorError
  else
    n_prev <- attr (fun self => len (nums self)) ;;
    value' <- match value, index with
              | Some v, _ => ret v
              | None, Some i =>
                  if negb ((- n_prev <=? i)%Z && (i <? n_prev)%Z)
                  then raise (IndexOutOfRangeError i n_prev)
                  else nums_ <- attr nums ;; lift (list_getitem nums_ i)
              | None, None =>
                  raise (TypeError
                    "'<=' not supported between instances of 'int' and 'NoneType'")
              end ;;
    index' <- match index with
              | Some i => ret i
              | None =>
                  present <- attr (fun self => __contains__ self value') ;;
                  if negb present then raise RaiseNonException
                  else
                    nums_ <- attr nums ;;
                    match list_index nums_ value' with
                    | Some i => ret (Z.of_nat i)
                    | None => raise (ValueError "x is not in list")
                      (* [list.index] on an absent value; not reached *)
                    end
              end ;;
    if (n_prev <=? 1)%Z then raise SingleElementError
    else
      popped <- probs_pop index' ;;
      let delta := popped / inject_Z (n_prev - 1) in
      nums_remove value' ;;;
      probs_ <- attr probs ;;
      assign (fun self => set_probs self (map (fun p => p + delta) probs_)) ;;;
      probs_ <- attr probs ;;
      assign (fun self => set_cdf self (cumsum probs_)).

(** The property [seed]: its getter and its setter. *)
Definition get_seed (self : RandomGen) : option Z := _seed self.

Definition seed_setter (new_seed : Z) : method unit :=
  assign (fun self => set_rng self (seed new_seed (rng self))) ;;;
  assign (fun self => set_seed self (Some new_seed)).

(** [m] draws in a row: the outcomes when all succeed, else the first
    exception. *)
Fixpoint draws (m : nat) : method (list num) :=
  match m with
  | O => ret []
  | S m' => v <- __next__ ;; l <- draws m' ;; ret (v :: l)
  end.

(** ** The outcome table and its invariants *)

(** What the code keeps true of the table. *)
Record table_ok (self : RandomGen) : Prop := {
  ok_nonempty : (1 <= length (nums self))%nat;
  ok_distinct : distinct (nums self);
  ok_len : length (probs self) = length (nums self);
  ok_pos : Forall (fun p => 0 < p) (probs self);
  ok_sum : isclose (py_sum (probs self)) 1 = true;
  ok_cdf : cdf self = cumsum (probs self)
}.

(** The invariant of the table in the words of the specification: equal
    lengths, at least one outcome, every probability in [(0, 1]], their sum
    close to [1], a non-decreasing [cdf] ending close to [1]. *)
Definition spec_table_invariant (self : RandomGen) : Prop :=
  length (nums self) = length (probs self) /\
  length (probs self) = length (cdf self) /\
  (1 <= length (cdf self))%nat /\
  Forall (fun p => 0 < p /\ p <= 1) (probs self) /\
  isclose (py_sum (probs self)) 1 = true /\
  nondecreasing (cdf self) /\
  isclose (last (cdf self) 0) 1 = true.

(** The same with the sum of the probabilities as their upper bound. *)
Definition table_invariant (self : RandomGen) : Prop :=
  length (nums self) = length (probs self) /\
  length (probs self) = length (cdf self) /\
  (1 <= length (cdf self))%nat /\
  Forall (fun p => 0 < p /\ p <= py_sum (probs self)) (probs self) /\
  isclose (py_sum (probs self)) 1 = true /\
  nondecreasing (cdf self) /\
  isclose (last (cdf self) 0) 1 = true.

(** An instance a successful construction returns. *)
Inductive constructed : RandomGen -> Prop :=
| constructed_by fresh random_nums probabilities seed_arg rng_arg self :
    __init__ fresh random_nums probabilities seed_arg rng_arg = inr self ->
    constructed self.

(** The instances a program can hold: a constructed one, and what a
    method call leaves behind. *)
Inductive reachable : RandomGen -> Prop :=
| reach_init self : constructed self -> reachable self
| reach_remove self value index self' :
    reachable self -> remove value index self = (inr tt, self') ->
    reachable self'
| reach_next self r self' :
    reachable self -> __next__ self = (r, self') -> reachable self'
| reach_gen self g r self' :
    reachable self -> gen_next g self = (r, self') -> reachable self'
| reach_seed self new_seed r self' :
    reachable self -> seed_setter new_seed self = (r, self') ->
    reachable self'.

(** A selector that [remove] accepts: a present value, or an index within
    [[-n, n)], and not both. *)
Definition valid_selector (self : RandomGen) (value : option num)
    (index : option Z) : Prop :=
  match value, index with
  | Some v, None => __contains__ self v = true
  | None, Some i => (- len (nums self) <= i < len (nums self))%Z
  | _, _ => False
  end.

(** The position a selector denotes. *)
Definition selected_position (self : RandomGen) (value : option num)
    (index : option Z) : option nat :=
  match value, index with
  | Some v, None => list_index (nums self) v
  | None, Some i => norm_index (length (nums self)) i
  | _, _ => None
  end.

(** The instance a removal at position [k] leaves when it took [popped]
    out of [probs]. *)
Definition after_removal (self : RandomGen) (k : nat) (popped : Q)
  : RandomGen :=
  let delta := popped / inject_Z (len (nums self) - 1) in
  let probs' := map (fun p => p + delta) (remove_at k (probs self)) in
  mkRandomGen (rng self) (_seed self) (remove_at k (nums self)) probs'
              (cumsum probs').

(** Values that do not repeat, with one probability each. *)
Definition aligned (self : RandomGen) : Prop :=
  distinct (nums self) /\ length (probs self) = length (nums self).

(** [RandomGen.remove] with the arithmetic rounded by [rnd]: the quotient
    [self.probs.pop(index) / (n_prev - 1)], each sum [p + delta] and each
    addition of [cumsum]. *)
Definition remove_r (rnd : Q -> Q) (value : option num) (index : option Z)
  : method unit :=
  if negb (xorb (is_none value) (is_none index))
  then raise AmbiguousSelectorError
  else
    n_prev <- attr (fun self => len (nums self)) ;;
    value' <- match value, index with
              | Some v, _ => ret v
              | None, Some i =>
                  if negb ((- n_prev <=? i)%Z && (i <? n_prev)%Z)
                  then raise (IndexOutOfRangeError i n_prev)
                  else nums_ <- attr nums ;; lift (list_getitem nums_ i)
              | None, None =>
                  raise (TypeError
                    "'<=' not supported between instances of 'int' and 'NoneType'")
              end ;;
    index' <- match index with
              | Some i => ret i
              | None =>
                  present <- attr (fun self => __contains__ self value') ;;
                  if negb present then raise RaiseNonException
                  else
                    nums_ <- attr nums ;;
                    match list_index nums_ value' with
                    | Some i => ret (Z.of_nat i)
                    | None => raise (ValueError "x is not in list")
                      (* [list.index] on an absent value; not reached *)
                    end
              end ;;
    if (n_prev <=? 1)%Z then raise SingleElementError
    else
      popped <- probs_pop index' ;;
      let delta := rnd (popped / inject_Z (n_prev - 1)) in
      nums_remove value' ;;;
      probs_ <- attr probs ;;
      assign (fun self =>
                set_probs self (map (fun p => rnd (p + delta)) probs_)) ;;;
      probs_ <- attr probs ;;
      assign (fun self => set_cdf self (cumsum_r rnd probs_)).

(** The instance a removal at position [k] leaves under the rounding
    [rnd] when it took [popped] out of [probs]. *)
Definition after_removal_r (rnd : Q -> Q) (self : RandomGen) (k : nat)
    (popped : Q) : RandomGen :=
  let delta := rnd (popped / inject_Z (len (nums self) - 1)) in
  let probs' := map (fun p => rnd (p + delta)) (remove_at k (probs self)) in
  mkRandomGen (rng self) (_seed self) (remove_at k (nums self)) probs'
              (cumsum_r rnd probs').

(** [RandomGen.from_dict]. *)
Definition from_dict (fresh : Src) (nums_probs : pydict)
    (seed_arg : option Z) (rng_arg : option Src) : exn + RandomGen :=
  __init__ fresh (dict_keys nums_probs) (Some (dict_values nums_probs))
           seed_arg rng_arg.

(** [RandomGen.__iter__]. *)
Definition __iter__ (self : RandomGen) : RandomGen := self.

End Sampler.

Arguments RandomGen Src : clear implicits.
Arguments method Src A : clear implicits.
Arguments mkRandomGen {Src} _ _ _ _ _.

(** ** A concrete random source

    A linear congruential generator with modulus [2^31], as a caller could
    inject through [rng=]: the state is the next draw's numerator, and
    reseeding forgets the state. *)
Module Lcg.

Definition modulus : Z := 2147483648.

Definition lcg_random (s : Z) : Q * Z :=
  (Qmake (s mod modulus) (Z.to_pos modulus),
   ((1103515245 * s + 12345) mod modulus)%Z).

Definition lcg_seed (z : Z) (_ : Z) : Z := (z mod modulus)%Z.

#[export] Instance lcg : Rng Z := {| random := lcg_random; seed := lcg_seed |}.

End Lcg.

Import Lcg.

(** ** Concrete instances *)

(** [RandomGen([-1, 0, 1], [0.3, 0.3, 0.4], seed=123)]. *)
Definition spec_table : RandomGen Z :=
  mkRandomGen 123%Z (Some 123%Z) [PyInt (-1); PyInt 0; PyInt 1]
              [0.3; 0.3; 0.4] (cumsum [0.3; 0.3; 0.4]).

(** The same instance as the machine holds it: the decimal literals read
    as doubles, the cdf summed with rounding. *)
Definition spec_table64 : RandomGen Z :=
  mkRandomGen 123%Z (Some 123%Z) [PyInt (-1); PyInt 0; PyInt 1]
              (map binary64 [0.3; 0.3; 0.4])
              (cumsum_r binary64 (map binary64 [0.3; 0.3; 0.4])).

(** [RandomGen([10, 20], rng=source)] with a source whose next draw is
    [2^30 / 2^31], one half. *)
Definition tie_table : RandomGen Z :=
  mkRandomGen 1073741824%Z None [PyInt 10; PyInt 20]
              (repeat (1 / inject_Z 2) 2) (cumsum (repeat (1 / inject_Z 2) 2)).

(** [RandomGen([1, 2], [0.5, 0.499999], rng=source)] with a source whose
    next draw is [(2^31 - 1) / 2^31]. *)
Definition gap_table : RandomGen Z :=
  mkRandomGen 2147483647%Z None [PyInt 1; PyInt 2]
              [0.5; 0.499999] (cumsum [0.5; 0.499999]).

(** [RandomGen([1, 2], [1.0, 0.00001])]. *)
Definition over_table : RandomGen Z :=
  mkRandomGen 0%Z None [PyInt 1; PyInt 2]
              [1; 0.00001] (cumsum [1; 0.00001]).

(** * Properties *)

(** ** Comparisons and the binary search *)

Lemma Qlt_bool_iff (x y : Q) : Qlt_bool x y = true <-> x < y.
Proof.
  unfold Qlt_bool. rewrite negb_true_iff.
  split; intro H.
  - apply Qnot_le_lt. intro L. apply Qle_bool_iff in L. congruence.
  - destruct (Qle_bool y x) eqn:E; [|reflexivity].
    apply Qle_bool_iff in E. exfalso. apply (Qlt_not_le _ _ H E).
Qed.

Lemma Qlt_bool_false_iff (x y : Q) : Qlt_bool x y = false <-> y <= x.
Proof.
  unfold Qlt_bool. rewrite negb_false_iff. apply Qle_bool_iff.
Qed.

Lemma binsearch_left_step (fuel : nat) (a : list Q) (key : Q) (lo hi : nat) :
  binsearch_left (S fuel) a key lo hi =
  if (lo <? hi)%nat then
    if Qlt_bool (nth (lo + (hi - lo) / 2) a 0) key
    then binsearch_left fuel a key (S (lo + (hi - lo) / 2)) hi
    else binsearch_left fuel a key lo (lo + (hi - lo) / 2)
  else lo.
Proof. reflexivity. Qed.

Lemma binsearch_left_bounds (a : list Q) (key : Q) :
  forall fuel lo hi,
    nondecreasing a ->
    (lo <= hi <= length a)%nat ->
    (hi - lo <= fuel)%nat ->
    (forall j, (j < lo)%nat -> nth j a 0 < key) ->
    (forall j, (hi <= j < length a)%nat -> key <= nth j a 0) ->
    let r := binsearch_left fuel a key lo hi in
    (lo <= r <= hi)%nat /\
    (forall j, (j < r)%nat -> nth j a 0 < key) /\
    (forall j, (r <= j < length a)%nat -> key <= nth j a 0).
Proof.
  induction fuel as [|fuel IH]; intros lo hi Hs Hb Hf Hlo Hhi r; subst r.
  - assert (lo = hi) by lia. subst hi. cbn. repeat split; auto; lia.
  - rewrite binsearch_left_step.
    destruct (Nat.ltb_spec lo hi) as [Hlt|Hge].
    + set (mid := (lo + (hi - lo) / 2)%nat).
      assert (Hmid : (lo <= mid < hi)%nat).
      { assert (Hd : ((hi - lo) / 2 < hi - lo)%nat)
          by (apply Nat.div_lt; lia).
        unfold mid. revert Hd. generalize ((hi - lo) / 2)%nat. intros d Hd.
        lia. }
      destruct (Qlt_bool (nth mid a 0) key) eqn:E.
      * apply Qlt_bool_iff in E.
        assert (Hlo' : forall j, (j < S mid)%nat -> nth j a 0 < key).
        { intros j Hj. apply Qle_lt_trans with (nth mid a 0); [|exact E].
          apply Hs. lia. }
        destruct (IH (S mid) hi Hs ltac:(lia) ltac:(lia) Hlo' Hhi)
          as (B1 & B2 & B3).
        split; [lia|]. split; assumption.
      * apply Qlt_bool_false_iff in E.
        assert (Hhi' : forall j, (mid <= j < length a)%nat -> key <= nth j a 0).
        { intros j Hj. apply Qle_trans with (nth mid a 0); [exact E|].
          apply Hs. lia. }
        destruct (IH lo mid Hs ltac:(lia) ltac:(lia) Hlo Hhi')
          as (B1 & B2 & B3).
        split; [lia|]. split; assumption.
    + assert (lo = hi) by lia. subst hi. repeat split; auto; lia.
Qed.

(** On a non-decreasing sequence [searchsorted] splits the positions into
    those below the key and those at least the key. *)
Lemma searchsorted_split (a : list Q) (v : Q) :
  nondecreasing a ->
  (searchsorted a v <= length a)%nat /\
  (forall j, (j < searchsorted a v)%nat -> nth j a 0 < v) /\
  (forall j, (searchsorted a v <= j < length a)%nat -> v <= nth j a 0).
Proof.
  intro Hs. unfold searchsorted.
  destruct (binsearch_left_bounds a v (length a) 0 (length a) Hs)
    as (B1 & B2 & B3); try lia.
  repeat split; auto; lia.
Qed.

Lemma searchsorted_first_ge (a : list Q) (v : Q) (i : nat) :
  nondecreasing a -> first_index_ge a v i -> searchsorted a v = i.
Proof.
  intros Hs (Hi & Hle & Hbelow).
  destruct (searchsorted_split a v Hs) as (B1 & B2 & B3).
  destruct (Nat.lt_trichotomy (searchsorted a v) i) as [L|[E|G]]; auto.
  - exfalso. apply (Qlt_not_le _ _ (Hbelow _ L)). apply B3. lia.
  - exfalso. apply (Qlt_not_le _ _ (B2 _ G)). exact Hle.
Qed.

(** When no element reaches the key, [searchsorted] returns the length. *)
Lemma searchsorted_beyond (a : list Q) (v : Q) :
  nondecreasing a ->
  (forall j, (j < length a)%nat -> nth j a 0 < v) ->
  searchsorted a v = length a.
Proof.
  intros Hs Hall.
  destruct (searchsorted_split a v Hs) as (B1 & B2 & B3).
  destruct (Nat.eq_dec (searchsorted a v) (length a)) as [E|N]; auto.
  exfalso. apply (Qlt_not_le _ _ (Hall (searchsorted a v) ltac:(lia))).
  apply B3. lia.
Qed.

(** ** Sums and running sums *)

Lemma fold_left_Qplus_acc (l : list Q) :
  forall a, fold_left Qplus l a == a + fold_left Qplus l 0.
Proof.
  induction l as [|p t IH]; intro a; cbn.
  - lra.
  - rewrite (IH (a + p)), (IH (0 + p)). lra.
Qed.

Lemma py_sum_nil : py_sum [] == 0.
Proof. reflexivity. Qed.

Lemma py_sum_cons (p : Q) (t : list Q) : py_sum (p :: t) == p + py_sum t.
Proof.
  unfold py_sum. cbn. rewrite fold_left_Qplus_acc. lra.
Qed.

Lemma py_sum_nonneg (l : list Q) : Forall (fun p => 0 < p) l -> 0 <= py_sum l.
Proof.
  induction 1 as [|p t Hp _ IH].
  - rewrite py_sum_nil. lra.
  - rewrite py_sum_cons. lra.
Qed.

(** Each element of a list of positive numbers is at most their sum. *)
Lemma py_sum_bounds_elements (l : list Q) :
  Forall (fun p => 0 < p) l -> Forall (fun p => p <= py_sum l) l.
Proof.
  induction 1 as [|p t Hp Ht IH]; constructor.
  - rewrite py_sum_cons. pose proof (py_sum_nonneg t Ht). lra.
  - apply Forall_impl with (2 := IH). intros q Hq.
    rewrite py_sum_cons. lra.
Qed.

Lemma py_sum_map_add (d : Q) (l : list Q) :
  py_sum (map (fun p => p + d) l) == py_sum l + inject_Z (len l) * d.
Proof.
  induction l as [|p t IH].
  - unfold py_sum, len. cbn. ring.
  - cbn [map]. rewrite !py_sum_cons, IH. unfold len. cbn [length].
    rewrite Nat2Z.inj_succ, <- Z.add_1_r, inject_Z_plus.
    change (inject_Z 1) with 1. ring.
Qed.

Lemma py_sum_repeat (x : Q) (n : nat) :
  py_sum (repeat x n) == inject_Z (Z.of_nat n) * x.
Proof.
  induction n as [|n IH].
  - unfold py_sum. cbn. ring.
  - cbn [repeat]. rewrite py_sum_cons, IH.
    rewrite Nat2Z.inj_succ, <- Z.add_1_r, inject_Z_plus.
    change (inject_Z 1) with 1. ring.
Qed.

Lemma last_cons_default {A : Type} (l : list A) :
  forall x d, last (x :: l) d = last l x.
Proof.
  induction l as [|y t IH]; intros x d; [reflexivity|].
  change (last (x :: y :: t) d) with (last (y :: t) d).
  rewrite (IH y d), (IH y x). reflexivity.
Qed.

Lemma cumsum_from_length (l : list Q) :
  forall acc, length (cumsum_from acc l) = length l.
Proof.
  induction l as [|p t IH]; intro acc; cbn; [reflexivity|].
  now rewrite IH.
Qed.

Lemma cumsum_length (l : list Q) : length (cumsum l) = length l.
Proof.
  destruct l as [|p t]; cbn; [reflexivity|]. now rewrite cumsum_from_length.
Qed.

Lemma cumsum_from_last (l : list Q) :
  forall acc, last (cumsum_from acc l) acc == acc + py_sum l.
Proof.
  induction l as [|p t IH]; intro acc.
  - cbn. lra.
  - cbn [cumsum_from]. rewrite last_cons_default, IH, py_sum_cons. lra.
Qed.

(** The last running sum is the sum. *)
Lemma cumsum_last (l : list Q) : last (cumsum l) 0 == py_sum l.
Proof.
  destruct l as [|p t].
  - reflexivity.
  - cbn [cumsum]. rewrite last_cons_default, cumsum_from_last, py_sum_cons.
    reflexivity.
Qed.

Lemma cumsum_from_lower (l : list Q) :
  Forall (fun p => 0 < p) l ->
  forall acc j, (j < length l)%nat -> acc <= nth j (cumsum_from acc l) 0.
Proof.
  induction 1 as [|p t Hp _ IH]; intros acc j Hj; cbn in *; [lia|].
  destruct j as [|j].
  - lra.
  - apply Qle_trans with (acc + p); [lra|]. apply IH. lia.
Qed.

Lemma nondecreasing_cons (x : Q) (l : list Q) :
  (forall j, (j < length l)%nat -> x <= nth j l 0) ->
  nondecreasing l -> nondecreasing (x :: l).
Proof.
  intros Hx Hl i j Hij. cbn in Hij.
  destruct i as [|i], j as [|j]; cbn; try lia.
  - lra.
  - apply Hx. lia.
  - apply Hl. lia.
Qed.

Lemma cumsum_from_nondecreasing (l : list Q) :
  Forall (fun p => 0 < p) l ->
  forall acc, nondecreasing (cumsum_from acc l).
Proof.
  induction 1 as [|p t Hp Ht IH]; intro acc.
  - intros i j Hij. cbn in Hij. lia.
  - cbn [cumsum_from]. apply nondecreasing_cons; [|apply IH].
    intros j Hj. rewrite cumsum_from_length in Hj.
    now apply cumsum_from_lower.
Qed.

(** The running sums of positive numbers do not decrease. *)
Lemma cumsum_nondecreasing (l : list Q) :
  Forall (fun p => 0 < p) l -> nondecreasing (cumsum l).
Proof.
  intro H. destruct H as [|p t Hp Ht].
  - intros i j Hij. cbn in Hij. lia.
  - cbn [cumsum]. apply nondecreasing_cons.
    + intros j Hj. rewrite cumsum_from_length in Hj.
      now apply cumsum_from_lower.
    + now apply cumsum_from_nondecreasing.
Qed.

Lemma last_as_nth (l : list Q) : last l 0 = nth (length l - 1) l 0.
Proof.
  induction l as [|x t IH]; [reflexivity|].
  destruct t as [|y t']; [reflexivity|].
  change (last (x :: y :: t') 0) with (last (y :: t') 0).
  rewrite IH. cbn [length].
  replace (S (S (length t')) - 1)%nat with (S (length t')) by lia.
  replace (S (length t') - 1)%nat with (length t') by lia.
  reflexivity.
Qed.

(** In a non-decreasing sequence no element exceeds the last one. *)
Lemma nondecreasing_le_last (l : list Q) (j : nat) :
  nondecreasing l -> (j < length l)%nat -> nth j l 0 <= last l 0.
Proof.
  intros Hs Hj. rewrite last_as_nth. apply Hs. lia.
Qed.

Lemma isclose_wd (a b c : Q) : a == b -> isclose a c = isclose b c.
Proof.
  intro E. unfold isclose. now rewrite E.
Qed.

(** ** Equality of values, membership and positions *)

Lemma num_eqb_refl (x : num) : num_eqb x x = true.
Proof. apply Qeq_bool_refl. Qed.

Lemma num_eqb_sym (x y : num) : num_eqb x y = num_eqb y x.
Proof. apply Qeq_bool_comm. Qed.

Lemma num_eqb_trans (x y z : num) :
  num_eqb x y = true -> num_eqb y z = true -> num_eqb x z = true.
Proof. apply Qeq_bool_trans. Qed.

Lemma num_eqb_iff (x y : num) : num_eqb x y = true <-> num_val x == num_val y.
Proof. apply Qeq_bool_iff. Qed.

(** Equal values are equally members. *)
Lemma py_in_compat (x y : num) (l : list num) :
  num_eqb x y = true -> py_in x l = py_in y l.
Proof.
  intro E. unfold py_in. induction l as [|z t IH]; cbn; [reflexivity|].
  rewrite IH. f_equal.
  destruct (num_eqb x z) eqn:Exz, (num_eqb y z) eqn:Eyz; auto.
  - rewrite num_eqb_sym in E.
    now rewrite (num_eqb_trans _ _ _ E Exz) in Eyz.
  - now rewrite (num_eqb_trans _ _ _ E Eyz) in Exz.
Qed.

Lemma py_in_nth (x : num) (l : list num) :
  py_in x l = true <->
  exists k y, nth_error l k = Some y /\ num_eqb x y = true.
Proof.
  unfold py_in. rewrite existsb_exists. split.
  - intros (y & Hin & E). apply In_nth_error in Hin as (k & Hk).
    now exists k, y.
  - intros (k & y & Hk & E). exists y. split; [|exact E].
    now apply nth_error_In with k.
Qed.

Lemma py_in_py_set (l : list num) :
  forall x, py_in x (py_set l) = py_in x l.
Proof.
  induction l as [|y t IH]; intro x; [reflexivity|].
  cbn [py_set]. destruct (py_in y (py_set t)) eqn:Ey.
  - rewrite IH. change (py_in x (y :: t)) with (num_eqb x y || py_in x t).
    destruct (num_eqb x y) eqn:Exy; [|reflexivity].
    rewrite (py_in_compat x y t Exy), <- IH. now rewrite Ey.
  - change (num_eqb x y || py_in x (py_set t) = num_eqb x y || py_in x t).
    now rewrite IH.
Qed.

Lemma py_set_length_le (l : list num) : (length (py_set l) <= length l)%nat.
Proof.
  induction l as [|x t IH]; cbn [py_set]; [lia|].
  destruct (py_in x (py_set t)); cbn [length]; lia.
Qed.

(** [len(set(l)) < len(l)] fails exactly on sequences without repetition. *)
Lemma py_set_distinct (l : list num) :
  (length (py_set l) <? length l)%nat = false <-> distinct l.
Proof.
  rewrite Nat.ltb_ge. induction l as [|x t IH]; cbn [py_set distinct].
  - cbn. intuition lia.
  - pose proof (py_set_length_le t) as Hle.
    destruct (py_in x (py_set t)) eqn:Ex; cbn [length].
    + rewrite py_in_py_set in Ex. split; [lia|].
      intros [Hx _]. congruence.
    + rewrite py_in_py_set in Ex. split.
      * intro H. split; [exact Ex|]. apply IH. lia.
      * intros [_ Ht]. apply IH in Ht. lia.
Qed.

Lemma remove_at_length {A : Type} (l : list A) :
  forall k, (k < length l)%nat -> S (length (remove_at k l)) = length l.
Proof.
  induction l as [|x t IH]; intros k Hk; cbn in *; [lia|].
  destruct k as [|k]; [reflexivity|]. cbn. rewrite IH; lia.
Qed.

Lemma nth_error_remove_at {A : Type} (l : list A) :
  forall k j,
    nth_error (remove_at k l) j =
    if (j <? k)%nat then nth_error l j else nth_error l (S j).
Proof.
  induction l as [|x t IH]; intros k j.
  - replace (remove_at k []) with (@nil A) by (destruct k; reflexivity).
    destruct (j <? k)%nat; destruct j; reflexivity.
  - destruct k as [|k]; [reflexivity|].
    destruct j as [|j]; [reflexivity|].
    cbn [remove_at nth_error]. rewrite IH.
    change (S j <? S k)%nat with (j <? k)%nat. reflexivity.
Qed.

Lemma remove_at_map {A B : Type} (f : A -> B) (l : list A) :
  forall k, remove_at k (map f l) = map f (remove_at k l).
Proof.
  induction l as [|x t IH]; intros [|k]; cbn; try reflexivity.
  now rewrite IH.
Qed.

Lemma py_in_remove_at (x : num) (l : list num) :
  forall k, py_in x l = false -> py_in x (remove_at k l) = false.
Proof.
  induction l as [|y t IH]; intros k H; [destruct k; exact H|].
  change (num_eqb x y || py_in x t = false) in H.
  apply orb_false_iff in H as [H1 H2].
  destruct k as [|k]; [exact H2|].
  change (num_eqb x y || py_in x (remove_at k t) = false).
  now rewrite H1, IH.
Qed.

Lemma distinct_remove_at (l : list num) :
  forall k, distinct l -> distinct (remove_at k l).
Proof.
  induction l as [|x t IH]; intros k H; [destruct k; exact H|].
  destruct H as [Hx Ht]. destruct k as [|k]; [exact Ht|].
  cbn [remove_at distinct]. split; [now apply py_in_remove_at|now apply IH].
Qed.

(** A present value has a first position; [index] returns it and [remove]
    deletes there. *)
Lemma list_index_present (l : list num) (v : num) :
  py_in v l = true ->
  exists k x, list_index l v = Some k /\ nth_error l k = Some x /\
              num_eqb x v = true /\ list_remove l v = Some (remove_at k l).
Proof.
  induction l as [|y t IH]; intro H; [discriminate|].
  change (num_eqb v y || py_in v t = true) in H.
  cbn [list_index list_remove].
  destruct (num_eqb y v) eqn:E.
  - exists O, y. repeat split; auto.
  - rewrite num_eqb_sym, E in H. cbn in H.
    destruct (IH H) as (k & x & Hi & Hn & Hx & Hr).
    exists (S k), x. rewrite Hi, Hr. repeat split; auto.
Qed.

(** In a sequence without repetition the element at a position is found
    at that position. *)
Lemma list_index_distinct (l : list num) :
  forall k x, distinct l -> nth_error l k = Some x ->
    list_index l x = Some k /\ list_remove l x = Some (remove_at k l).
Proof.
  induction l as [|y t IH]; intros k x Hd Hk; [destruct k; discriminate|].
  destruct Hd as [Hy Ht]. cbn [list_index list_remove].
  destruct k as [|k].
  - cbn in Hk. injection Hk as ->. rewrite num_eqb_refl. split; reflexivity.
  - cbn in Hk. destruct (num_eqb y x) eqn:E.
    + exfalso. rewrite (py_in_compat y x t E) in Hy.
      assert (py_in x t = true)
        by (apply py_in_nth; exists k, x; split; [exact Hk|apply num_eqb_refl]).
      congruence.
    + destruct (IH k x Ht Hk) as [-> ->]. split; reflexivity.
Qed.

Lemma list_index_compat (l : list num) (x y : num) :
  num_eqb x y = true -> list_index l x = list_index l y.
Proof.
  intro E. induction l as [|z t IH]; [reflexivity|].
  cbn [list_index]. rewrite IH.
  destruct (num_eqb z x) eqn:Ezx, (num_eqb z y) eqn:Ezy; auto.
  - now rewrite (num_eqb_trans _ _ _ Ezx E) in Ezy.
  - rewrite num_eqb_sym in E.
    now rewrite (num_eqb_trans _ _ _ Ezy E) in Ezx.
Qed.

(** In a sequence without repetition equal values sit at one position. *)
Lemma distinct_nth_inj (l : list num) (i j : nat) (x y : num) :
  distinct l -> nth_error l i = Some x -> nth_error l j = Some y ->
  num_eqb x y = true -> i = j.
Proof.
  intros Hd Hx Hy E.
  destruct (list_index_distinct l i x Hd Hx) as [Hi _].
  destruct (list_index_distinct l j y Hd Hy) as [Hj _].
  rewrite (list_index_compat l x y E) in Hi. congruence.
Qed.

Lemma dict_zip_lookup_absent (keys : list num) :
  forall vals w, py_in w keys = false -> dict_zip_lookup keys vals w = None.
Proof.
  induction keys as [|k ks IH]; intros vals w H; [reflexivity|].
  change (num_eqb w k || py_in w ks = false) in H.
  apply orb_false_iff in H as [H1 H2].
  destruct vals as [|v vs]; [reflexivity|]. cbn [dict_zip_lookup].
  rewrite (IH vs w H2), num_eqb_sym, H1. reflexivity.
Qed.

(** Looking a value up in [dict(zip(keys, vals))] gives the entry of
    [vals] at the position of the value in [keys]. *)
Lemma dict_zip_lookup_nth (keys : list num) :
  forall vals j x w,
    distinct keys -> length vals = length keys ->
    nth_error keys j = Some x -> num_eqb x w = true ->
    dict_zip_lookup keys vals w = nth_error vals j.
Proof.
  induction keys as [|k ks IH]; intros vals j x w Hd Hl Hj E;
    [destruct j; discriminate|].
  destruct vals as [|v vs]; [discriminate|].
  destruct Hd as [Hk Hks]. cbn in Hl. cbn [dict_zip_lookup].
  destruct j as [|j].
  - cbn in Hj. injection Hj as ->.
    rewrite (py_in_compat x w ks E) in Hk.
    rewrite (dict_zip_lookup_absent ks vs w Hk), E. reflexivity.
  - cbn in Hj. rewrite (IH vs j x w Hks ltac:(lia) Hj E). cbn.
    destruct (nth_error vs j) eqn:N; [reflexivity|].
    apply nth_error_None in N.
    assert (nth_error ks j <> None) by congruence.
    apply nth_error_Some in H. lia.
Qed.

(** ** Construction *)

Lemma existsb_false_Forall {A : Type} (f : A -> bool) (l : list A) :
  existsb f l = false -> Forall (fun x => f x = false) l.
Proof.
  induction l as [|x t IH]; cbn; intro H; constructor;
    apply orb_false_iff in H as [H1 H2]; auto.
Qed.

Lemma inject_nat_pos (n : nat) : (1 <= n)%nat -> 1 <= inject_Z (Z.of_nat n).
Proof.
  intro H. change 1 with (inject_Z 1). rewrite <- Zle_Qle. lia.
Qed.

Lemma equal_share_bounds (n : nat) :
  (1 <= n)%nat ->
  0 < 1 / inject_Z (Z.of_nat n) /\ 1 / inject_Z (Z.of_nat n) <= 1.
Proof.
  intro H. pose proof (inject_nat_pos n H) as Hn. split.
  - apply Qlt_shift_div_l; lra.
  - apply Qle_shift_div_r; lra.
Qed.

Lemma equal_share_sum (n : nat) :
  (1 <= n)%nat ->
  py_sum (repeat (1 / inject_Z (Z.of_nat n)) n) == 1.
Proof.
  intro H. pose proof (inject_nat_pos n H) as Hn.
  rewrite py_sum_repeat. field. lra.
Qed.

Section SamplerFacts.

Context {Src : Type} {rng_ops : Rng Src}.

Implicit Types self : RandomGen Src.

(** What a successful construction has checked and stored. *)
Lemma init_inr (fresh : Src) (random_nums : list num)
    (probabilities : option (list Q)) (seed_arg : option Z)
    (rng_arg : option Src) self :
  __init__ fresh random_nums probabilities seed_arg rng_arg = inr self ->
  nums self = random_nums /\
  (1 <= length random_nums)%nat /\
  distinct random_nums /\
  _seed self = seed_arg /\
  rng self =
    (let rng0 := match rng_arg with None => fresh | Some r => r end in
     match seed_arg with Some s => seed s rng0 | None => rng0 end) /\
  cdf self = cumsum (probs self) /\
  length (probs self) = length random_nums /\
  isclose (py_sum (probs self)) 1 = true /\
  Forall (fun p => 0 < p /\ p <= 1) (probs self) /\
  match probabilities with
  | Some (p :: ps) => probs self = p :: ps
  | _ => probs self =
         repeat (1 / inject_Z (Z.of_nat (length random_nums)))
                (length random_nums)
  end.
Proof.
  unfold __init__.
  destruct (Nat.eqb_spec (length random_nums) 0) as [|Hn]; [discriminate|].
  destruct (length (py_set random_nums) <? length random_nums)%nat eqn:Hd;
    [discriminate|].
  apply py_set_distinct in Hd.
  assert (Hdefault :
    forall g,
      inr (mkRandomGen
             (match seed_arg with
              | Some s => seed s (match rng_arg with None => fresh | Some r => r end)
              | None => match rng_arg with None => fresh | Some r => r end
              end) seed_arg random_nums
             (repeat (1 / inject_Z (Z.of_nat (length random_nums)))
                     (length random_nums))
             (cumsum (repeat (1 / inject_Z (Z.of_nat (length random_nums)))
                             (length random_nums)))) = inr g :> exn + RandomGen Src ->
      nums g = random_nums /\ (1 <= length random_nums)%nat /\
      distinct random_nums /\ _seed g = seed_arg /\
      rng g = (let rng0 := match rng_arg with None => fresh | Some r => r end in
               match seed_arg with Some s => seed s rng0 | None => rng0 end) /\
      cdf g = cumsum (probs g) /\
      length (probs g) = length random_nums /\
      isclose (py_sum (probs g)) 1 = true /\
      Forall (fun p => 0 < p /\ p <= 1) (probs g) /\
      probs g = repeat (1 / inject_Z (Z.of_nat (length random_nums)))
                       (length random_nums)).
  { intros g Hg. injection Hg as <-. cbn.
    repeat split; auto; try lia.
    - apply repeat_length.
    - rewrite (isclose_wd _ 1 1); [reflexivity|].
      apply equal_share_sum. lia.
    - apply Forall_forall. intros p Hp. apply repeat_spec in Hp. subst p.
      apply equal_share_bounds. lia. }
  destruct probabilities as [[|p ps]|]; try (intro H; exact (Hdefault _ H)).
  destruct (length (p :: ps) =? length random_nums)%nat eqn:Hl;
    [|discriminate]. cbn [negb].
  apply Nat.eqb_eq in Hl.
  destruct (isclose (py_sum (p :: ps)) 1) eqn:Hs; [|discriminate].
  cbn [negb orb].
  destruct (existsb _ (p :: ps)) eqn:Hp; [discriminate|].
  intro H. injection H as <-. cbn [nums probs cdf _seed rng].
  repeat split; auto; try lia.
  apply existsb_false_Forall in Hp.
  apply Forall_impl with (2 := Hp). intros q Hq.
  apply orb_false_iff in Hq as [Hq1 Hq2].
  apply Qlt_bool_false_iff in Hq2. split; [|exact Hq2].
  apply Qnot_le_lt. intro L. apply Qle_bool_iff in L. congruence.
Qed.

Lemma init_table_ok (fresh : Src) (random_nums : list num)
    (probabilities : option (list Q)) (seed_arg : option Z)
    (rng_arg : option Src) self :
  __init__ fresh random_nums probabilities seed_arg rng_arg = inr self ->
  table_ok self.
Proof.
  intro H. apply init_inr in H
    as (Hn & H1 & Hd & _ & _ & Hc & Hl & Hs & Hp & _).
  constructor; rewrite ?Hn; auto.
  apply Forall_impl with (2 := Hp). tauto.
Qed.

(** ** Removal *)

Lemma norm_index_of_nat (n k : nat) :
  (k < n)%nat -> norm_index n (Z.of_nat k) = Some k.
Proof.
  intro H. unfold norm_index.
  destruct (Z.leb_spec 0 (Z.of_nat k)); [|lia].
  destruct (Z.ltb_spec (Z.of_nat k) (Z.of_nat n)); [|lia].
  cbn. now rewrite Nat2Z.id.
Qed.

Lemma norm_index_in_range (n : nat) (i : Z) :
  (- Z.of_nat n <= i < Z.of_nat n)%Z ->
  exists k, norm_index n i = Some k /\ (k < n)%nat.
Proof.
  intro H. unfold norm_index.
  destruct (Z.leb_spec 0 i).
  - destruct (Z.ltb_spec i (Z.of_nat n)); [|lia].
    cbn. exists (Z.to_nat i). split; [reflexivity|lia].
  - cbn. destruct (Z.leb_spec (- Z.of_nat n) i); [|lia].
    destruct (Z.ltb_spec i 0); [|lia].
    cbn. exists (Z.to_nat (Z.of_nat n + i)). split; [reflexivity|lia].
Qed.

Lemma norm_index_Some (n : nat) (i : Z) (k : nat) :
  norm_index n i = Some k ->
  (- Z.of_nat n <= i < Z.of_nat n)%Z /\ (k < n)%nat.
Proof.
  unfold norm_index.
  destruct (Z.leb_spec 0 i); destruct (Z.ltb_spec i (Z.of_nat n)); cbn;
    try (intro E; injection E as <-; lia);
    destruct (Z.leb_spec (- Z.of_nat n) i); destruct (Z.ltb_spec i 0); cbn;
    try discriminate; intro E; injection E as <-; lia.
Qed.

(** [remove(value=v)], statement by statement. *)
Lemma remove_by_value (v : num) self :
  remove (Some v) None self =
  if negb (__contains__ self v) then (inl RaiseNonException, self)
  else
    match list_index (nums self) v with
    | None => (inl (ValueError "x is not in list"), self)
    | Some i =>
        if (len (nums self) <=? 1)%Z then (inl SingleElementError, self)
        else
          match list_pop (probs self) (Z.of_nat i) with
          | inl e => (inl e, self)
          | inr (popped, l) =>
              let delta := popped / inject_Z (len (nums self) - 1) in
              match list_remove (nums self) v with
              | None =>
                  (inl (ValueError "list.remove(x): x not in list"),
                   set_probs self l)
              | Some l' =>
                  (inr tt,
                   mkRandomGen (rng self) (_seed self) l'
                     (map (fun p => p + delta) l)
                     (cumsum (map (fun p => p + delta) l)))
              end
          end
    end.
Proof.
  unfold remove, bind, attr, ret, raise, assign, probs_pop, nums_remove.
  cbn [is_none xorb negb].
  destruct (__contains__ self v); cbn [negb]; [|reflexivity].
  destruct (list_index (nums self) v) as [i|]; [|reflexivity].
  destruct (len (nums self) <=? 1)%Z; [reflexivity|].
  destruct (list_pop (probs self) (Z.of_nat i)) as [e|[popped l]];
    [reflexivity|].
  cbn [nums set_probs].
  destruct (list_remove (nums self) v) as [l'|]; reflexivity.
Qed.

(** [remove(index=i)], statement by statement. *)
Lemma remove_by_index (i : Z) self :
  remove None (Some i) self =
  if negb ((- len (nums self) <=? i)%Z && (i <? len (nums self))%Z)
  then (inl (IndexOutOfRangeError i (len (nums self))), self)
  else
    match list_getitem (nums self) i with
    | inl e => (inl e, self)
    | inr v =>
        if (len (nums self) <=? 1)%Z then (inl SingleElementError, self)
        else
          match list_pop (probs self) i with
          | inl e => (inl e, self)
          | inr (popped, l) =>
              let delta := popped / inject_Z (len (nums self) - 1) in
              match list_remove (nums self) v with
              | None =>
                  (inl (ValueError "list.remove(x): x not in list"),
                   set_probs self l)
              | Some l' =>
                  (inr tt,
                   mkRandomGen (rng self) (_seed self) l'
                     (map (fun p => p + delta) l)
                     (cumsum (map (fun p => p + delta) l)))
              end
          end
    end.
Proof.
  unfold remove, bind, attr, ret, raise, assign, lift, probs_pop, nums_remove.
  cbn [is_none xorb negb].
  destruct ((- len (nums self) <=? i)%Z && (i <? len (nums self))%Z);
    cbn [negb]; [|reflexivity].
  destruct (list_getitem (nums self) i) as [e|v]; [reflexivity|].
  destruct (len (nums self) <=? 1)%Z; [reflexivity|].
  destruct (list_pop (probs self) i) as [e|[popped l]]; [reflexivity|].
  cbn [nums set_probs].
  destruct (list_remove (nums self) v) as [l'|]; reflexivity.
Qed.

(** [remove()] and [remove(value=v, index=i)]. *)
Lemma remove_ambiguous (value : option num) (index : option Z) self :
  is_none value = is_none index ->
  remove value index self = (inl AmbiguousSelectorError, self).
Proof.
  intro H. unfold remove. rewrite H.
  now destruct (is_none index).
Qed.

Lemma list_getitem_inr {A : Type} (l : list A) (i : Z) (x : A) :
  list_getitem l i = inr x ->
  exists k, norm_index (length l) i = Some k /\ nth_error l k = Some x.
Proof.
  unfold list_getitem.
  destruct (norm_index (length l) i) as [k|]; [|discriminate].
  destruct (nth_error l k) as [y|] eqn:E; [|discriminate].
  intro H. injection H as ->. now exists k.
Qed.

Lemma nth_error_py_in (l : list num) (k : nat) (x : num) :
  nth_error l k = Some x -> py_in x l = true.
Proof.
  intro H. apply py_in_nth. exists k, x. split; [exact H|apply num_eqb_refl].
Qed.

Lemma list_remove_present (l : list num) (v : num) :
  py_in v l = true -> list_remove l v <> None.
Proof.
  intro H. destruct (list_index_present l v H) as (k & x & _ & _ & _ & ->).
  discriminate.
Qed.

Lemma Forall_remove_at {A : Type} (P : A -> Prop) (l : list A) :
  forall k, Forall P l -> Forall P (remove_at k l).
Proof.
  induction l as [|x t IH]; intros k H; [destruct k; exact H|].
  inversion H as [|? ? Hx Ht]; subst.
  destruct k as [|k]; [exact Ht|]. cbn. constructor; auto.
Qed.

Lemma py_sum_remove_at (l : list Q) :
  forall k p, nth_error l k = Some p ->
    py_sum (remove_at k l) == py_sum l - p.
Proof.
  induction l as [|x t IH]; intros k p H; [destruct k; discriminate|].
  destruct k as [|k]; cbn in H.
  - injection H as ->. cbn [remove_at]. rewrite py_sum_cons. ring.
  - cbn [remove_at]. rewrite !py_sum_cons, (IH k p H). ring.
Qed.

(** A removal at a position of a table with at least two outcomes leaves
    a table. *)
Lemma after_removal_ok self (k : nat) (popped : Q) :
  table_ok self -> (2 <= length (nums self))%nat ->
  nth_error (probs self) k = Some popped ->
  table_ok (after_removal self k popped).
Proof.
  intros [Hn Hd Hl Hp Hs Hc] H2 Hk.
  assert (Hklt : (k < length (probs self))%nat)
    by (apply nth_error_Some; congruence).
  assert (Hpop : 0 < popped).
  { apply nth_error_In in Hk. rewrite Forall_forall in Hp. now apply Hp. }
  assert (Hn1 : 1 <= inject_Z (len (nums self) - 1)).
  { change 1 with (inject_Z 1). rewrite <- Zle_Qle. unfold len. lia. }
  assert (Hdelta : 0 < popped / inject_Z (len (nums self) - 1)).
  { apply Qlt_shift_div_l; lra. }
  pose proof (remove_at_length (probs self) k Hklt) as Hlen.
  constructor; unfold after_removal; cbn [nums probs cdf].
  - pose proof (remove_at_length (nums self) k ltac:(lia)). lia.
  - now apply distinct_remove_at.
  - rewrite length_map.
    pose proof (remove_at_length (nums self) k ltac:(lia)). lia.
  - apply Forall_map. apply Forall_remove_at.
    apply Forall_impl with (2 := Hp). intros p Hp0. lra.
  - rewrite <- Hs. apply isclose_wd.
    rewrite py_sum_map_add, (py_sum_remove_at _ _ _ Hk).
    replace (len (remove_at k (probs self))) with (len (nums self) - 1)%Z
      by (unfold len; lia).
    field. lra.
  - reflexivity.
Qed.

(** A valid selector on a table with at least two outcomes: [remove]
    succeeds and removes at the selected position. *)
Lemma remove_run self (value : option num) (index : option Z) :
  table_ok self -> (2 <= length (nums self))%nat ->
  valid_selector self value index ->
  exists k x popped,
    selected_position self value index = Some k /\
    nth_error (nums self) k = Some x /\
    nth_error (probs self) k = Some popped /\
    remove value index self = (inr tt, after_removal self k popped).
Proof.
  intros Hok H2 Hv. pose proof Hok as [Hn Hd Hl Hp Hs Hc].
  destruct value as [v|], index as [i|]; cbn in Hv; try contradiction.
  - (* by value *)
    destruct (list_index_present _ _ Hv) as (k & x & Hi & Hx & _ & Hr).
    assert (Hk : (k < length (nums self))%nat)
      by (apply nth_error_Some; congruence).
    destruct (nth_error (probs self) k) as [popped|] eqn:Hpk;
      [|apply nth_error_None in Hpk; lia].
    exists k, x, popped. cbn [selected_position].
    repeat split; auto.
    rewrite remove_by_value. unfold __contains__ in *. rewrite Hv. cbn [negb].
    rewrite Hi.
    destruct (Z.leb_spec (len (nums self)) 1); [unfold len in *; lia|].
    unfold list_pop. rewrite norm_index_of_nat by lia.
    rewrite Hpk, Hr. reflexivity.
  - (* by index *)
    destruct (norm_index_in_range (length (nums self)) i Hv) as (k & Hi & Hk).
    destruct (nth_error (nums self) k) as [x|] eqn:Hx;
      [|apply nth_error_None in Hx; lia].
    destruct (nth_error (probs self) k) as [popped|] eqn:Hpk;
      [|apply nth_error_None in Hpk; lia].
    exists k, x, popped. cbn [selected_position].
    repeat split; auto.
    rewrite remove_by_index.
    destruct (Z.leb_spec (- len (nums self)) i); [|unfold len in *; lia].
    destruct (Z.ltb_spec i (len (nums self))); [|unfold len in *; lia].
    cbn [andb negb].
    unfold list_getitem. rewrite Hi, Hx.
    destruct (Z.leb_spec (len (nums self)) 1); [unfold len in *; lia|].
    unfold list_pop. rewrite Hl, Hi, Hpk.
    destruct (list_index_distinct _ _ _ Hd Hx) as [_ ->]. reflexivity.
Qed.

(** A removal that succeeds had a valid selector and at least two
    outcomes to work on. *)
Lemma remove_inr_valid self (value : option num) (index : option Z)
    (self' : RandomGen Src) :
  remove value index self = (inr tt, self') ->
  valid_selector self value index /\ (2 <= length (nums self))%nat.
Proof.
  destruct value as [v|], index as [i|].
  - rewrite remove_ambiguous by reflexivity. discriminate.
  - rewrite remove_by_value. cbn [valid_selector].
    destruct (__contains__ self v); cbn [negb]; [|discriminate].
    destruct (list_index (nums self) v); [|discriminate].
    destruct (Z.leb_spec (len (nums self)) 1); [discriminate|].
    intros _. split; [reflexivity|unfold len in *; lia].
  - rewrite remove_by_index. cbn [valid_selector].
    destruct (Z.leb_spec (- len (nums self)) i);
      destruct (Z.ltb_spec i (len (nums self))); cbn [andb negb];
      try discriminate.
    destruct (list_getitem (nums self) i); [discriminate|].
    destruct (Z.leb_spec (len (nums self)) 1); [discriminate|].
    intros _. split; [lia|unfold len in *; lia].
  - rewrite remove_ambiguous by reflexivity. discriminate.
Qed.

Lemma remove_table_ok self (value : option num) (index : option Z)
    (self' : RandomGen Src) :
  table_ok self -> remove value index self = (inr tt, self') ->
  table_ok self'.
Proof.
  intros Hok Hr. destruct (remove_inr_valid _ _ _ _ Hr) as [Hv H2].
  destruct (remove_run self value index Hok H2 Hv)
    as (k & x & popped & _ & _ & Hp & Hrun).
  rewrite Hrun in Hr. injection Hr as <-.
  now apply after_removal_ok.
Qed.

(** ** Draws and reseeding leave the table alone *)

Lemma next_eq self :
  __next__ self =
  (list_getitem (nums self)
     (Z.of_nat (searchsorted (cdf self) (fst (random (rng self))))),
   set_rng self (snd (random (rng self)))).
Proof.
  unfold __next__, bind, attr, lift.
  destruct (random (rng self)) as [r s']. reflexivity.
Qed.

Lemma seed_setter_eq (new_seed : Z) self :
  seed_setter new_seed self =
  (inr tt, mkRandomGen (seed new_seed (rng self)) (Some new_seed)
                       (nums self) (probs self) (cdf self)).
Proof. reflexivity. Qed.

Lemma table_ok_same_table self (self' : RandomGen Src) :
  nums self' = nums self -> probs self' = probs self ->
  cdf self' = cdf self -> table_ok self -> table_ok self'.
Proof.
  intros Hn Hp Hc [H1 H2 H3 H4 H5 H6].
  constructor; rewrite ?Hn, ?Hp, ?Hc; assumption.
Qed.

(** One [next(gen)] on a generator of [next_k_nums] changes at most the
    random source. *)
Lemma gen_next_same_table (g : generator) self (r : gen_result * generator)
    (self' : RandomGen Src) :
  gen_next g self = (r, self') ->
  nums self' = nums self /\ probs self' = probs self /\ cdf self' = cdf self.
Proof.
  assert (Hloop : forall k, gen_loop k self = (r, self') ->
            nums self' = nums self /\ probs self' = probs self /\
            cdf self' = cdf self).
  { intro k. unfold gen_loop. destruct (k =? 0)%Z.
    - intro H. injection H as _ <-. auto.
    - rewrite next_eq. destruct (list_getitem _ _);
        intro H; injection H as _ <-; auto. }
  destruct g as [k|k|]; cbn [gen_next].
  - destruct (as_int k) as [z|]; [destruct (0 <? z)%Z|];
      try apply Hloop; intro H; injection H as _ <-; auto.
  - apply Hloop.
  - intro H. injection H as _ <-. auto.
Qed.

Lemma reachable_table_ok self : reachable self -> table_ok self.
Proof.
  induction 1 as [self Hc|self value index self' _ IH Hr
                 |self r self' _ IH Hn|self g r self' _ IH Hg
                 |self z r self' _ IH Hs].
  - destruct Hc as [fresh random_nums probabilities seed_arg rng_arg self H].
    now apply init_table_ok in H.
  - now apply remove_table_ok with (1 := IH) (2 := Hr).
  - rewrite next_eq in Hn. injection Hn as _ <-.
    now apply table_ok_same_table with (4 := IH).
  - apply gen_next_same_table in Hg as (A & B & C).
    now apply table_ok_same_table with (4 := IH).
  - rewrite seed_setter_eq in Hs. injection Hs as _ <-.
    now apply table_ok_same_table with (4 := IH).
Qed.

Lemma table_ok_invariant self : table_ok self -> table_invariant self.
Proof.
  intros [Hn Hd Hl Hp Hs Hc]. unfold table_invariant.
  rewrite Hc, cumsum_length.
  repeat split; auto; try lia.
  - pose proof (py_sum_bounds_elements _ Hp) as Hb.
    rewrite Forall_forall in *. intros p Hin. split; auto.
  - now apply cumsum_nondecreasing.
  - rewrite <- Hs. apply isclose_wd, cumsum_last.
Qed.

Lemma table_ok_spec_invariant self :
  table_ok self -> Forall (fun p => p <= 1) (probs self) ->
  spec_table_invariant self.
Proof.
  intros Hok H1. destruct (table_ok_invariant self Hok)
    as (A & B & C & D & E & F & G).
  unfold spec_table_invariant. repeat split; auto.
  rewrite Forall_forall in *. intros p Hin. split; [apply D|apply H1]; auto.
Qed.

Lemma constructed_spec_invariant self :
  constructed self -> spec_table_invariant self.
Proof.
  intros [fresh random_nums probabilities seed_arg rng_arg g H].
  apply table_ok_spec_invariant; [now apply init_table_ok in H|].
  apply init_inr in H as (_ & _ & _ & _ & _ & _ & _ & _ & Hp & _).
  apply Forall_impl with (2 := Hp). tauto.
Qed.

(** ** What [remove] guarantees *)

(** C5.  A call of [remove] that raises leaves the instance as it was:
    values, probabilities and cdf (and the random source and the seed)
    are those from before the call, whatever the selector and whatever
    the failure. *)
Theorem remove_failure_no_mutation self (value : option num)
    (index : option Z) (e : exn) (self' : RandomGen Src) :
  remove value index self = (inl e, self') -> self' = self.
Proof.
  destruct value as [v|], index as [i|].
  - rewrite remove_ambiguous by reflexivity. congruence.
  - rewrite remove_by_value.
    destruct (__contains__ self v) eqn:Hc; cbn [negb]; [|congruence].
    destruct (list_index (nums self) v); [|congruence].
    destruct (len (nums self) <=? 1)%Z; [congruence|].
    destruct (list_pop (probs self) (Z.of_nat n)) as [e'|[popped l]];
      [congruence|].
    cbn zeta.
    destruct (list_remove (nums self) v) eqn:Hr; [discriminate|].
    now apply list_remove_present in Hc.
  - rewrite remove_by_index.
    destruct (negb _); [congruence|].
    destruct (list_getitem (nums self) i) as [e'|v] eqn:Hg; [congruence|].
    destruct (len (nums self) <=? 1)%Z; [congruence|].
    destruct (list_pop (probs self) i) as [e'|[popped l]]; [congruence|].
    cbn zeta.
    destruct (list_remove (nums self) v) eqn:Hr; [discriminate|].
    apply list_getitem_inr in Hg as (k & _ & Hk).
    apply nth_error_py_in in Hk. now apply list_remove_present in Hk.
  - rewrite remove_ambiguous by reflexivity. congruence.
Qed.


Lemma getitem_at_position self (j : nat) (y w : num) :
  distinct (nums self) -> length (probs self) = length (nums self) ->
  nth_error (nums self) j = Some y -> num_eqb y w = true ->
  exists p, nth_error (probs self) j = Some p /\ __getitem__ self w = inr p.
Proof.
  intros Hd Hl Hj E. unfold __getitem__.
  rewrite (dict_zip_lookup_nth _ _ _ _ _ Hd Hl Hj E).
  destruct (nth_error (probs self) j) as [p|] eqn:Hp.
  - now exists p.
  - apply nth_error_None in Hp.
    assert (j < length (nums self))%nat by (apply nth_error_Some; congruence).
    lia.
Qed.


(** ** [remove] with rounded arithmetic *)

Lemma cumsum_from_r_length (rnd : Q -> Q) (l : list Q) :
  forall acc, length (cumsum_from_r rnd acc l) = length l.
Proof.
  induction l as [|p t IH]; intro acc; cbn; [reflexivity|].
  now rewrite IH.
Qed.

Lemma cumsum_r_length (rnd : Q -> Q) (l : list Q) :
  length (cumsum_r rnd l) = length l.
Proof.
  destruct l as [|p t]; cbn; [reflexivity|].
  now rewrite cumsum_from_r_length.
Qed.

Lemma cumsum_from_r_exact (l : list Q) :
  forall acc, cumsum_from_r (fun q => q) acc l = cumsum_from acc l.
Proof.
  induction l as [|p t IH]; intro acc; cbn; [reflexivity|].
  now rewrite IH.
Qed.

Lemma cumsum_r_exact (l : list Q) : cumsum_r (fun q => q) l = cumsum l.
Proof.
  destruct l as [|p t]; cbn; [reflexivity|].
  now rewrite cumsum_from_r_exact.
Qed.

(** [remove(value=v)] with rounding, statement by statement. *)
Lemma remove_r_by_value (rnd : Q -> Q) (v : num) self :
  remove_r rnd (Some v) None self =
  if negb (__contains__ self v) then (inl RaiseNonException, self)
  else
    match list_index (nums self) v with
    | None => (inl (ValueError "x is not in list"), self)
    | Some i =>
        if (len (nums self) <=? 1)%Z then (inl SingleElementError, self)
        else
          match list_pop (probs self) (Z.of_nat i) with
          | inl e => (inl e, self)
          | inr (popped, l) =>
              let delta := rnd (popped / inject_Z (len (nums self) - 1)) in
              match list_remove (nums self) v with
              | None =>
                  (inl (ValueError "list.remove(x): x not in list"),
                   set_probs self l)
              | Some l' =>
                  (inr tt,
                   mkRandomGen (rng self) (_seed self) l'
                     (map (fun p => rnd (p + delta)) l)
                     (cumsum_r rnd (map (fun p => rnd (p + delta)) l)))
              end
          end
    end.
Proof.
  unfold remove_r, bind, attr, ret, raise, assign, probs_pop, nums_remove.
  cbn [is_none xorb negb].
  destruct (__contains__ self v); cbn [negb]; [|reflexivity].
  destruct (list_index (nums self) v) as [i|]; [|reflexivity].
  destruct (len (nums self) <=? 1)%Z; [reflexivity|].
  destruct (list_pop (probs self) (Z.of_nat i)) as [e|[popped l]];
    [reflexivity|].
  cbn [nums set_probs].
  destruct (list_remove (nums self) v) as [l'|]; reflexivity.
Qed.

(** [remove(index=i)] with rounding, statement by statement. *)
Lemma remove_r_by_index (rnd : Q -> Q) (i : Z) self :
  remove_r rnd None (Some i) self =
  if negb ((- len (nums self) <=? i)%Z && (i <? len (nums self))%Z)
  then (inl (IndexOutOfRangeError i (len (nums self))), self)
  else
    match list_getitem (nums self) i with
    | inl e => (inl e, self)
    | inr v =>
        if (len (nums self) <=? 1)%Z then (inl SingleElementError, self)
        else
          match list_pop (probs self) i with
          | inl e => (inl e, self)
          | inr (popped, l) =>
              let delta := rnd (popped / inject_Z (len (nums self) - 1)) in
              match list_remove (nums self) v with
              | None =>
                  (inl (ValueError "list.remove(x): x not in list"),
                   set_probs self l)
              | Some l' =>
                  (inr tt,
                   mkRandomGen (rng self) (_seed self) l'
                     (map (fun p => rnd (p + delta)) l)
                     (cumsum_r rnd (map (fun p => rnd (p + delta)) l)))
              end
          end
    end.
Proof.
  unfold remove_r, bind, attr, ret, raise, assign, lift, probs_pop,
    nums_remove.
  cbn [is_none xorb negb].
  destruct ((- len (nums self) <=? i)%Z && (i <? len (nums self))%Z);
    cbn [negb]; [|reflexivity].
  destruct (list_getitem (nums self) i) as [e|v]; [reflexivity|].
  destruct (len (nums self) <=? 1)%Z; [reflexivity|].
  destruct (list_pop (probs self) i) as [e|[popped l]]; [reflexivity|].
  cbn [nums set_probs].
  destruct (list_remove (nums self) v) as [l'|]; reflexivity.
Qed.

Lemma remove_r_ambiguous (rnd : Q -> Q) (value : option num)
    (index : option Z) self :
  is_none value = is_none index ->
  remove_r rnd value index self = (inl AmbiguousSelectorError, self).
Proof.
  intro H. unfold remove_r. rewrite H.
  now destruct (is_none index).
Qed.

(** With no rounding the method is [remove]. *)
Lemma remove_r_exact (value : option num) (index : option Z) self :
  remove_r (fun q => q) value index self = remove value index self.
Proof.
  destruct value as [v|], index as [i|].
  - now rewrite remove_r_ambiguous, remove_ambiguous.
  - rewrite remove_r_by_value, remove_by_value.
    destruct (negb _); [reflexivity|].
    destruct (list_index _ _); [|reflexivity].
    destruct (_ <=? _)%Z; [reflexivity|].
    destruct (list_pop _ _) as [e|[popped l]]; [reflexivity|].
    cbn zeta. destruct (list_remove _ _); [|reflexivity].
    now rewrite cumsum_r_exact.
  - rewrite remove_r_by_index, remove_by_index.
    destruct (negb _); [reflexivity|].
    destruct (list_getitem _ _); [reflexivity|].
    destruct (_ <=? _)%Z; [reflexivity|].
    destruct (list_pop _ _) as [e|[popped l]]; [reflexivity|].
    cbn zeta. destruct (list_remove _ _); [|reflexivity].
    now rewrite cumsum_r_exact.
  - now rewrite remove_r_ambiguous, remove_ambiguous.
Qed.

(** A valid selector on aligned values, at least two of them: [remove]
    succeeds under any rounding and removes at the selected position. *)
Lemma remove_r_run (rnd : Q -> Q) self (value : option num)
    (index : option Z) :
  aligned self -> (2 <= length (nums self))%nat ->
  valid_selector self value index ->
  exists k x popped,
    selected_position self value index = Some k /\
    nth_error (nums self) k = Some x /\
    nth_error (probs self) k = Some popped /\
    remove_r rnd value index self = (inr tt, after_removal_r rnd self k popped).
Proof.
  intros [Hd Hl] H2 Hv.
  destruct value as [v|], index as [i|]; cbn in Hv; try contradiction.
  - destruct (list_index_present _ _ Hv) as (k & x & Hi & Hx & _ & Hr).
    assert (Hk : (k < length (nums self))%nat)
      by (apply nth_error_Some; congruence).
    destruct (nth_error (probs self) k) as [popped|] eqn:Hpk;
      [|apply nth_error_None in Hpk; lia].
    exists k, x, popped. cbn [selected_position].
    repeat split; auto.
    rewrite remove_r_by_value. unfold __contains__ in *. rewrite Hv.
    cbn [negb]. rewrite Hi.
    destruct (Z.leb_spec (len (nums self)) 1); [unfold len in *; lia|].
    unfold list_pop. rewrite norm_index_of_nat by lia.
    rewrite Hpk, Hr. reflexivity.
  - destruct (norm_index_in_range (length (nums self)) i Hv) as (k & Hi & Hk).
    destruct (nth_error (nums self) k) as [x|] eqn:Hx;
      [|apply nth_error_None in Hx; lia].
    destruct (nth_error (probs self) k) as [popped|] eqn:Hpk;
      [|apply nth_error_None in Hpk; lia].
    exists k, x, popped. cbn [selected_position].
    repeat split; auto.
    rewrite remove_r_by_index.
    destruct (Z.leb_spec (- len (nums self)) i); [|unfold len in *; lia].
    destruct (Z.ltb_spec i (len (nums self))); [|unfold len in *; lia].
    cbn [andb negb].
    unfold list_getitem. rewrite Hi, Hx.
    destruct (Z.leb_spec (len (nums self)) 1); [unfold len in *; lia|].
    unfold list_pop. rewrite Hl, Hi, Hpk.
    destruct (list_index_distinct _ _ _ Hd Hx) as [_ ->]. reflexivity.
Qed.

(** A removal that succeeds under a rounding had a valid selector and at
    least two values to work on. *)
Lemma remove_r_inr_valid (rnd : Q -> Q) self (value : option num)
    (index : option Z) (self' : RandomGen Src) :
  remove_r rnd value index self = (inr tt, self') ->
  valid_selector self value index /\ (2 <= length (nums self))%nat.
Proof.
  destruct value as [v|], index as [i|].
  - rewrite remove_r_ambiguous by reflexivity. discriminate.
  - rewrite remove_r_by_value. cbn [valid_selector].
    destruct (__contains__ self v); cbn [negb]; [|discriminate].
    destruct (list_index (nums self) v); [|discriminate].
    destruct (Z.leb_spec (len (nums self)) 1); [discriminate|].
    intros _. split; [reflexivity|unfold len in *; lia].
  - rewrite remove_r_by_index. cbn [valid_selector].
    destruct (Z.leb_spec (- len (nums self)) i);
      destruct (Z.ltb_spec i (len (nums self))); cbn [andb negb];
      try discriminate.
    destruct (list_getitem (nums self) i); [discriminate|].
    destruct (Z.leb_spec (len (nums self)) 1); [discriminate|].
    intros _. split; [lia|unfold len in *; lia].
  - rewrite remove_r_ambiguous by reflexivity. discriminate.
Qed.

(** A removal keeps the remaining values distinct and aligned with the
    probabilities, and one shorter. *)
Lemma after_removal_r_aligned (rnd : Q -> Q) self (k : nat) (popped : Q) :
  aligned self -> (k < length (nums self))%nat ->
  aligned (after_removal_r rnd self k popped) /\
  S (length (nums (after_removal_r rnd self k popped))) = length (nums self).
Proof.
  intros [Hd Hl] Hk. unfold aligned, after_removal_r. cbn [nums probs].
  pose proof (remove_at_length (nums self) k Hk) as Hn.
  pose proof (remove_at_length (probs self) k ltac:(lia)) as Hp.
  split; [split|exact Hn].
  - now apply distinct_remove_at.
  - rewrite length_map. lia.
Qed.

(** C2 (amended).  On values that do not repeat, aligned with their
    probabilities, at least two of them, and with a valid selector,
    [remove] succeeds and deletes the selected outcome; the probability
    [p] of every outcome that remains becomes [rnd (p + share)] with
    [share = rnd (p_removed / (n_prev - 1))], where [p_removed] was the
    probability of the deleted outcome and [rnd] rounds each result of
    the arithmetic - to the nearest double on the machine, not at all in
    real arithmetic, where the increment is [p_removed / (n_prev - 1)]
    exactly.  The cdf is rebuilt from the new probabilities.  On the
    machine, removing [0] from [[-1, 0, 1]] with probabilities
    [[0.3, 0.3, 0.4]] leaves [[-1, 1]] with probabilities
    [[0.44999999999999996, 0.55]], which is [[0.45, 0.55]] within
    [1e-16]. *)
Theorem remove_redistributes_rounded_shares :
  (forall (rnd : Q -> Q) self (value : option num) (index : option Z),
      aligned self -> (2 <= length (nums self))%nat ->
      valid_selector self value index ->
      exists (k : nat) (removed : num) (p_removed : Q) (self' : RandomGen Src),
        let share := rnd (p_removed / inject_Z (len (nums self) - 1)) in
        remove_r rnd value index self = (inr tt, self') /\
        selected_position self value index = Some k /\
        nth_error (nums self) k = Some removed /\
        nth_error (probs self) k = Some p_removed /\
        nums self' = remove_at k (nums self) /\
        probs self' = map (fun p => rnd (p + share))
                          (remove_at k (probs self)) /\
        cdf self' = cumsum_r rnd (probs self') /\
        forall w, __contains__ self' w = true ->
          exists p, __getitem__ self w = inr p /\
                    __getitem__ self' w = inr (rnd (p + share))) /\
  (forall (source : Src) (stored_seed : option Z),
      exists self' : RandomGen Src,
        remove_r binary64 (Some (PyInt 0)) None
          (mkRandomGen source stored_seed [PyInt (-1); PyInt 0; PyInt 1]
             (map binary64 [0.3; 0.3; 0.4])
             (cumsum_r binary64 (map binary64 [0.3; 0.3; 0.4])))
        = (inr tt, self') /\
        nums self' = [PyInt (-1); PyInt 1] /\
        Forall2 Qeq (probs self')
                [binary64 0.44999999999999996; binary64 0.55] /\
        Forall2 (fun p q => Qabs (p - q) <= 1 # 10000000000000000)
                (probs self') [0.45; 0.55]).
Proof.
  split.
  - intros rnd self value index Hal H2 Hv.
    destruct (remove_r_run rnd self value index Hal H2 Hv)
      as (k & x & popped & Hsel & Hx & Hp & Hrun).
    exists k, x, popped, (after_removal_r rnd self k popped). cbn zeta.
    repeat split; auto.
    intros w Hw.
    assert (Hk : (k < length (nums self))%nat)
      by (apply nth_error_Some; congruence).
    destruct (after_removal_r_aligned rnd self k popped Hal Hk)
      as [[Hd' Hl'] _].
    destruct Hal as [Hd Hl].
    unfold __contains__ in Hw. apply py_in_nth in Hw as (j & y & Hj & E).
    rewrite num_eqb_sym in E.
    destruct (getitem_at_position _ j y w Hd' Hl' Hj E) as (q & Hq & Hg').
    cbn [after_removal_r nums probs] in Hj, Hq.
    rewrite nth_error_map, nth_error_remove_at in Hq.
    rewrite nth_error_remove_at in Hj.
    set (j' := if (j <? k)%nat then j else S j).
    assert (Hj' : nth_error (nums self) j' = Some y)
      by (unfold j'; now destruct (j <? k)%nat).
    destruct (getitem_at_position _ j' y w Hd Hl Hj' E) as (p & Hpj & Hg).
    exists p. split; [exact Hg|].
    rewrite Hg'. f_equal.
    assert (Hpj2 : (if (j <? k)%nat then nth_error (probs self) j
                    else nth_error (probs self) (S j)) = Some p)
      by (unfold j' in Hpj; now destruct (j <? k)%nat).
    rewrite Hpj2 in Hq. cbn in Hq. now injection Hq as <-.
  - intros source stored_seed.
    exists (after_removal_r binary64
              (mkRandomGen source stored_seed [PyInt (-1); PyInt 0; PyInt 1]
                 (map binary64 [0.3; 0.3; 0.4])
                 (cumsum_r binary64 (map binary64 [0.3; 0.3; 0.4])))
              1 (binary64 0.3)).
    split; [now vm_compute|]. split; [reflexivity|].
    split; repeat constructor; vm_compute; congruence.
Qed.

(** ** What a draw returns *)

Lemma list_getitem_nat {A : Type} (l : list A) (k : nat) (x : A) :
  nth_error l k = Some x -> list_getitem l (Z.of_nat k) = inr x.
Proof.
  intro H. unfold list_getitem.
  assert (k < length l)%nat by (apply nth_error_Some; congruence).
  rewrite norm_index_of_nat by assumption. now rewrite H.
Qed.

Lemma list_getitem_length {A : Type} (l : list A) :
  list_getitem l (Z.of_nat (length l)) = inl (IndexError "list index out of range").
Proof.
  unfold list_getitem, norm_index.
  destruct (Z.ltb_spec (Z.of_nat (length l)) (Z.of_nat (length l))); [lia|].
  rewrite andb_false_r.
  destruct (Z.ltb_spec (Z.of_nat (length l)) 0); [lia|].
  now rewrite andb_false_r.
Qed.

Lemma table_ok_cdf self :
  table_ok self ->
  nondecreasing (cdf self) /\ length (cdf self) = length (nums self) /\
  last (cdf self) 0 == py_sum (probs self).
Proof.
  intros [Hn Hd Hl Hp Hs Hc]. rewrite Hc, cumsum_length.
  split; [now apply cumsum_nondecreasing|]. split; [exact Hl|].
  apply cumsum_last.
Qed.

(** C1 (amended).  On a table, when the random source gives [r] and some
    element of the cdf is at least [r], a draw returns [values[i]] for the
    smallest index [i] with [cdf[i] >= r], and only advances the random
    source. *)
Theorem next_returns_first_ge self (r : Q) (s' : Src) (i : nat) :
  table_ok self ->
  random (rng self) = (r, s') ->
  first_index_ge (cdf self) r i ->
  exists v, nth_error (nums self) i = Some v /\
            __next__ self = (inr v, set_rng self s').
Proof.
  intros Hok Hr Hi.
  destruct (table_ok_cdf self Hok) as (Hs & Hl & _).
  assert (Hlt : (i < length (nums self))%nat)
    by (destruct Hi as (Hi & _); lia).
  destruct (nth_error (nums self) i) as [v|] eqn:Hv;
    [|apply nth_error_None in Hv; lia].
  exists v. split; [reflexivity|].
  rewrite next_eq, Hr. cbn [fst snd].
  rewrite (searchsorted_first_ge _ _ _ Hs Hi).
  now rewrite (list_getitem_nat _ _ _ Hv).
Qed.

(** When the draw of the random source does not exceed the last element
    of the cdf, [__next__] returns one of the values. *)
Lemma next_member self :
  table_ok self ->
  fst (random (rng self)) <= last (cdf self) 0 ->
  exists v, __next__ self = (inr v, set_rng self (snd (random (rng self)))) /\
            __contains__ self v = true.
Proof.
  intros Hok Hr. destruct (table_ok_cdf self Hok) as (Hs & Hl & _).
  pose proof (ok_nonempty self Hok) as Hn.
  set (r := fst (random (rng self))) in *.
  destruct (searchsorted_split (cdf self) r Hs) as (B1 & B2 & B3).
  assert (Hlt : (searchsorted (cdf self) r < length (nums self))%nat).
  { destruct (Nat.eq_dec (searchsorted (cdf self) r) (length (cdf self)))
      as [E|N]; [|lia].
    exfalso. rewrite last_as_nth in Hr.
    apply (Qlt_not_le _ _ (B2 (length (cdf self) - 1)%nat ltac:(lia)) Hr). }
  destruct (nth_error (nums self) (searchsorted (cdf self) r)) as [v|] eqn:Hv;
    [|apply nth_error_None in Hv; lia].
  exists v. rewrite next_eq. fold r.
  rewrite (list_getitem_nat _ _ _ Hv). split; [reflexivity|].
  now apply nth_error_py_in in Hv.
Qed.

(** When the draw exceeds every element of the cdf, [__next__] raises. *)
Lemma next_beyond_cdf self :
  table_ok self ->
  last (cdf self) 0 < fst (random (rng self)) ->
  __next__ self = (inl (IndexError "list index out of range"),
               set_rng self (snd (random (rng self)))).
Proof.
  intros Hok Hr. destruct (table_ok_cdf self Hok) as (Hs & Hl & _).
  rewrite next_eq. rewrite searchsorted_beyond; auto.
  - now rewrite Hl, list_getitem_length.
  - intros j Hj. apply Qle_lt_trans with (2 := Hr).
    now apply nondecreasing_le_last.
Qed.

Lemma collect_created (fuel : nat) (k : pyobj) (z : Z) self :
  as_int k = Some z -> (0 < z)%Z ->
  collect (S fuel) (next_k_nums k) self =
  collect (S fuel) (GenSuspended z) self.
Proof.
  intros Hk Hz. cbn [collect next_k_nums gen_next]. rewrite Hk.
  destruct (Z.ltb_spec 0 z); [reflexivity|lia].
Qed.

(** C8.  When [k] is not a positive integer - not an [int] at all, zero
    or negative - the first [next] on the generator of [next_k_nums(k)]
    raises the [ValueError] for an invalid count, so consuming the
    generator raises it, and the instance is untouched. *)
Theorem next_k_nums_rejects_count self (k : pyobj) :
  (forall z, as_int k = Some z -> (z <= 0)%Z) ->
  gen_next (next_k_nums k) self = ((Raised InvalidCountError, GenClosed), self) /\
  forall fuel,
    collect (S fuel) (next_k_nums k) self = Some (inl InvalidCountError, self).
Proof.
  intro Hk.
  assert (E : gen_next (next_k_nums k) self =
              ((Raised InvalidCountError, GenClosed), self)).
  { cbn [next_k_nums gen_next]. destruct (as_int k) as [z|] eqn:Ek;
      [|reflexivity].
    specialize (Hk z eq_refl). destruct (Z.ltb_spec 0 z); [lia|reflexivity]. }
  split; [exact E|]. intro fuel. cbn [collect]. now rewrite E.
Qed.

(** C10.  Distinctness and membership compare values as numbers: a
    construction from the integer [1] and the real [1.0] raises the
    duplicate-value error, and so does every construction from values of
    which two, at different positions, are equal as numbers; and
    [v in self] holds as soon as [v] is numerically equal to a stored
    value, of whatever subtype. *)
Theorem numeric_equality_across_subtypes :
  (forall (fresh : Src) probabilities seed_arg rng_arg,
      __init__ fresh [PyInt 1; PyFloat 1] probabilities seed_arg rng_arg
      = inl DuplicateValueError) /\
  (forall (fresh : Src) random_nums probabilities seed_arg rng_arg
          (i j : nat) (x y : num),
      nth_error random_nums i = Some x -> nth_error random_nums j = Some y ->
      i <> j -> num_val x == num_val y ->
      __init__ fresh random_nums probabilities seed_arg rng_arg
      = inl DuplicateValueError) /\
  (forall self (v w : num),
      In w (nums self) -> num_val v == num_val w -> __contains__ self v = true).
Proof.
  split; [|split].
  - intros. reflexivity.
  - intros fresh random_nums probabilities seed_arg rng_arg i j x y
           Hx Hy Hij E.
    unfold __init__.
    destruct (Nat.eqb_spec (length random_nums) 0) as [E0|_].
    { destruct random_nums; [destruct i; discriminate|discriminate]. }
    destruct (length (py_set random_nums) <? length random_nums)%nat eqn:Hd;
      [reflexivity|].
    apply py_set_distinct in Hd. apply num_eqb_iff in E.
    now destruct (Hij (distinct_nth_inj _ _ _ _ _ Hd Hx Hy E)).
  - intros self v w Hin E. unfold __contains__, py_in.
    apply existsb_exists. exists w. split; [exact Hin|].
    now apply num_eqb_iff.
Qed.

(** C4 (amended).  For values that are not empty and do not repeat, and a
    supplied non-empty sequence of probabilities of another length, the
    construction raises the length-mismatch error. *)
Theorem init_length_mismatch (fresh : Src) (random_nums : list num)
    (p : Q) (ps : list Q) (seed_arg : option Z) (rng_arg : option Src) :
  random_nums <> [] ->
  distinct random_nums ->
  length (p :: ps) <> length random_nums ->
  __init__ fresh random_nums (Some (p :: ps)) seed_arg rng_arg
  = inl LengthMismatchError.
Proof.
  intros Hne Hd Hl. unfold __init__.
  destruct (Nat.eqb_spec (length random_nums) 0) as [E|_].
  - destruct random_nums; [contradiction|discriminate].
  - apply py_set_distinct in Hd. rewrite Hd.
    destruct (Nat.eqb_spec (length (p :: ps)) (length random_nums));
      [contradiction|reflexivity].
Qed.

(** [remove(value=v)] for an absent [v] reaches the [raise] of a string. *)
Lemma remove_absent_value self (v : num) :
  __contains__ self v = false ->
  remove (Some v) None self = (inl RaiseNonException, self).
Proof.
  intro H. rewrite remove_by_value, H. reflexivity.
Qed.

(** ** Finite runs of draws *)

Section UnitSource.

(** The contract of the random source: a draw is below [1]. *)
Hypothesis random_below_one : forall s : Src, fst (random s) < 1.

(** On a table whose cdf reaches [1], a generator suspended with [n]
    draws to go yields [n] values of the table and stops. *)
Lemma collect_suspended (n : nat) :
  forall self,
    table_ok self -> 1 <= py_sum (probs self) ->
    exists (l : list num) (self' : RandomGen Src),
      collect (S n) (GenSuspended (Z.of_nat n)) self = Some (inr l, self') /\
      length l = n /\
      Forall (fun v => __contains__ self v = true) l /\
      nums self' = nums self /\ probs self' = probs self /\
      cdf self' = cdf self.
Proof.
  induction n as [|n IH]; intros self Hok Hsum.
  - exists [], self. cbn. repeat split; auto.
  - destruct (table_ok_cdf self Hok) as (_ & _ & Hlast).
    destruct (next_member self Hok) as (v & Hnext & Hv).
    { rewrite Hlast. pose proof (random_below_one (rng self)). lra. }
    set (self1 := set_rng self (snd (random (rng self)))) in *.
    assert (Hok1 : table_ok self1)
      by now apply table_ok_same_table with (4 := Hok).
    destruct (IH self1 Hok1 Hsum) as (l & self' & Hc & Hlen & Hall & A & B & C).
    exists (v :: l), self'.
    change (collect (S (S n)) (GenSuspended (Z.of_nat (S n))) self)
      with (match gen_next (GenSuspended (Z.of_nat (S n))) self with
            | ((Yield v, g'), self') =>
                match collect (S n) g' self' with
                | Some (inr l, self'') => Some (inr (v :: l), self'')
                | Some (inl e, self'') => Some (inl e, self'')
                | None => None
                end
            | ((StopIteration, _), self') => Some (inr [], self')
            | ((Raised e, _), self') => Some (inl e, self')
            end).
    cbn [gen_next]. unfold gen_loop.
    destruct (Z.eqb_spec (Z.of_nat (S n)) 0); [lia|].
    rewrite Hnext.
    replace (Z.of_nat (S n) - 1)%Z with (Z.of_nat n) by lia.
    rewrite Hc. repeat split; auto;
      solve [cbn; now rewrite Hlen | constructor; [exact Hv|exact Hall]].
Qed.

(** On a table whose cdf reaches [1], [next_k_nums(k)] for a positive
    integer [k] yields exactly [k] values, each one of the table. *)
Lemma next_k_nums_exact self (k : pyobj) (z : Z) :
  as_int k = Some z -> (0 < z)%Z ->
  table_ok self -> 1 <= py_sum (probs self) ->
  exists (l : list num) (self' : RandomGen Src),
    collect (S (Z.to_nat z)) (next_k_nums k) self = Some (inr l, self') /\
    Z.of_nat (length l) = z /\
    Forall (fun v => __contains__ self v = true) l.
Proof.
  intros Hk Hz Hok Hsum.
  destruct (collect_suspended (Z.to_nat z) self Hok Hsum)
    as (l & self' & Hc & Hlen & Hall & _).
  exists l, self'. rewrite (collect_created _ k z self Hk Hz).
  rewrite Z2Nat.id in Hc by lia. repeat split; auto. lia.
Qed.

End UnitSource.

(** ** Seeds *)

Section SeedDeterminism.

(** The contract of reseeding: the seed alone decides the state of the
    random source, as it does for [random.Random]. *)
Hypothesis seed_resets : forall (z : Z) (s1 s2 : Src), seed z s1 = seed z s2.

Lemma init_same_seed (fresh1 fresh2 : Src) (rng1 rng2 : option Src)
    (random_nums : list num) (probabilities : option (list Q)) (z : Z) :
  __init__ fresh1 random_nums probabilities (Some z) rng1 =
  __init__ fresh2 random_nums probabilities (Some z) rng2.
Proof.
  unfold __init__.
  now rewrite (seed_resets z (match rng1 with None => fresh1 | Some r => r end)
                 (match rng2 with None => fresh2 | Some r => r end)).
Qed.

(** C9.  Two samplers constructed from the same values, the same
    probabilities and the same seed, each on a random source of its own,
    give the same outcomes (or the same exception) over any number [m] of
    draws. *)
Theorem same_seed_same_draws (fresh1 fresh2 : Src) (rng1 rng2 : option Src)
    (random_nums : list num) (probabilities : option (list Q)) (z : Z)
    (self1 self2 : RandomGen Src) (m : nat) :
  __init__ fresh1 random_nums probabilities (Some z) rng1 = inr self1 ->
  __init__ fresh2 random_nums probabilities (Some z) rng2 = inr self2 ->
  fst (draws m self1) = fst (draws m self2).
Proof.
  intros H1 H2.
  rewrite (init_same_seed fresh1 fresh2 rng1 rng2) in H1.
  rewrite H1 in H2. now injection H2 as ->.
Qed.

End SeedDeterminism.

End SamplerFacts.

(** ** Concrete runs *)

Lemma spec_table_init :
  __init__ 0%Z [PyInt (-1); PyInt 0; PyInt 1] (Some [0.3; 0.3; 0.4])
       (Some 123%Z) None = inr spec_table.
Proof. reflexivity. Qed.

Lemma tie_table_init :
  __init__ 0%Z [PyInt 10; PyInt 20] None None (Some 1073741824%Z) = inr tie_table.
Proof. reflexivity. Qed.

Lemma gap_table_init :
  __init__ 0%Z [PyInt 1; PyInt 2] (Some [0.5; 0.499999]) None
       (Some 2147483647%Z) = inr gap_table.
Proof. reflexivity. Qed.

Lemma over_table_init :
  __init__ 0%Z [PyInt 1; PyInt 2] (Some [1; 0.00001]) None None = inr over_table.
Proof. reflexivity. Qed.

(** C1, as stated, fails on a tie.  On [tie_table] the cdf is [[1/2, 1]]
    and the source draws [r = 1/2]: the smallest index with [cdf[i] > r]
    is [1], whose value is [20], and the draw returns [10]. *)
Lemma next_first_gt_counterexample :
  let r := fst (random (rng tie_table)) in
  __init__ 0%Z [PyInt 10; PyInt 20] None None (Some 1073741824%Z) = inr tie_table /\
  (0 <= r /\ r < 1) /\
  first_index_gt (cdf tie_table) r 1 /\
  nth_error (nums tie_table) 1 = Some (PyInt 20) /\
  fst (__next__ tie_table) = inr (PyInt 10) /\
  fst (__next__ tie_table) <> inr (PyInt 20).
Proof.
  cbn zeta. split; [reflexivity|]. split.
  { split; [vm_compute; discriminate|vm_compute; reflexivity]. }
  split.
  { split; [cbn; lia|]. split; [vm_compute; reflexivity|].
    intros j Hj. destruct j as [|j]; [vm_compute; discriminate|lia]. }
  split; [reflexivity|]. split; [reflexivity|].
  vm_compute. discriminate.
Qed.


(** C4, as stated, fails in three ways: with no values the empty-input
    error comes first, with repeated values the duplicate-value error comes
    first, and an empty sequence of probabilities counts as none given, so
    that the construction succeeds with equal probabilities. *)
Lemma init_length_mismatch_counterexample :
  (length [1] <> length (@nil num) /\
   __init__ 0%Z [] (Some [1]) None None = inl EmptyInputError /\
   EmptyInputError <> LengthMismatchError) /\
  (length [1] <> length [PyInt 7; PyInt 7] /\
   __init__ 0%Z [PyInt 7; PyInt 7] (Some [1]) None None = inl DuplicateValueError /\
   DuplicateValueError <> LengthMismatchError) /\
  (length (@nil Q) <> length [PyInt 1; PyInt 2] /\
   __init__ 0%Z [PyInt 1; PyInt 2] (Some []) None None
   = inr (mkRandomGen 0%Z None [PyInt 1; PyInt 2]
            (repeat (1 / inject_Z 2) 2) (cumsum (repeat (1 / inject_Z 2) 2)))).
Proof.
  repeat split; try reflexivity; try discriminate.
Qed.

(** C6.  On [spec_table], whose values are [[-1, 0, 1]],
    [remove(value=5)] raises the [TypeError] that Python substitutes for
    the string the method tries to raise, not an error for a value that
    is not found. *)
Theorem remove_absent_value_raises_type_error :
  __contains__ spec_table (PyInt 5) = false /\
  remove (Some (PyInt 5)) None spec_table
  = (inl (TypeError "exceptions must derive from BaseException"), spec_table).
Proof.
  split; reflexivity.
Qed.

(** C7.  [gap_table] is a table that the construction accepts: its
    probabilities sum to [0.999999], within tolerance of [1].  Its source
    draws [r = (2^31 - 1) / 2^31], a number of [[0, 1)] above the last
    element of the cdf, and [next_k_nums(1)] then raises [IndexError]
    in place of yielding one value. *)
Theorem next_k_nums_gap_raises :
  let r := fst (random (rng gap_table)) in
  __init__ 0%Z [PyInt 1; PyInt 2] (Some [0.5; 0.499999]) None
       (Some 2147483647%Z) = inr gap_table /\
  spec_table_invariant gap_table /\
  (0 <= r /\ r < 1) /\
  last (cdf gap_table) 0 < r /\
  forall fuel,
    collect (S fuel) (next_k_nums (ONum (PyInt 1))) gap_table
    = Some (inl (IndexError "list index out of range"),
            set_rng gap_table (snd (random (rng gap_table)))).
Proof.
  cbn zeta. split; [reflexivity|]. split.
  { apply constructed_spec_invariant.
    exact (constructed_by _ _ _ _ _ _ gap_table_init). }
  split.
  { split; [vm_compute; discriminate|vm_compute; reflexivity]. }
  split; [vm_compute; reflexivity|].
  intro fuel. reflexivity.
Qed.

(** ** The general results at work on the concrete instances *)

Lemma spec_table_ok : table_ok spec_table.
Proof. exact (init_table_ok _ _ _ _ _ _ spec_table_init). Qed.

Lemma tie_table_ok : table_ok tie_table.
Proof. exact (init_table_ok _ _ _ _ _ _ tie_table_init). Qed.

(** On [tie_table] with the draw [1/2] the first index whose cdf is at
    least the draw is [0], and the draw returns [10]. *)
Lemma next_returns_first_ge_witness :
  table_ok tie_table /\
  random (rng tie_table) = (1073741824 # 2147483648, 1073754169%Z) /\
  first_index_ge (cdf tie_table) (1073741824 # 2147483648) 0 /\
  exists v, nth_error (nums tie_table) 0 = Some v /\
            __next__ tie_table = (inr v, set_rng tie_table 1073754169%Z).
Proof.
  assert (H1 : table_ok tie_table) by exact tie_table_ok.
  assert (H2 : random (rng tie_table) = (1073741824 # 2147483648, 1073754169%Z))
    by reflexivity.
  assert (H3 : first_index_ge (cdf tie_table) (1073741824 # 2147483648) 0).
  { split; [cbn; lia|]. split; [vm_compute; discriminate|].
    intros j Hj. lia. }
  split; [exact H1|]. split; [exact H2|]. split; [exact H3|].
  exact (next_returns_first_ge tie_table _ _ 0%nat H1 H2 H3).
Defined.



(** The rejection case of the specification:
    [RandomGen([-1, 0, 1], [0.1, 0.1])]. *)
Lemma init_length_mismatch_witness :
  [PyInt (-1); PyInt 0; PyInt 1] <> [] /\
  distinct [PyInt (-1); PyInt 0; PyInt 1] /\
  length [0.1; 0.1] <> length [PyInt (-1); PyInt 0; PyInt 1] /\
  __init__ 0%Z [PyInt (-1); PyInt 0; PyInt 1] (Some [0.1; 0.1]) None None
  = inl LengthMismatchError.
Proof.
  assert (H1 : [PyInt (-1); PyInt 0; PyInt 1] <> []) by discriminate.
  assert (H2 : distinct [PyInt (-1); PyInt 0; PyInt 1])
    by (cbn; repeat split; reflexivity).
  assert (H3 : length [0.1; 0.1] <> length [PyInt (-1); PyInt 0; PyInt 1])
    by (cbn; lia).
  split; [exact H1|]. split; [exact H2|]. split; [exact H3|].
  exact (init_length_mismatch 0%Z _ 0.1 [0.1] None None H1 H2 H3).
Defined.

(** [spec_table.remove(index=3)] raises and leaves [spec_table]. *)
Lemma remove_failure_no_mutation_witness :
  remove None (Some 3%Z) spec_table
  = (inl (IndexError "Index 3 is out of the valid range for length 2."),
     spec_table) /\
  spec_table = spec_table.
Proof.
  assert (H : remove None (Some 3%Z) spec_table
              = (inl (IndexError
                        "Index 3 is out of the valid range for length 2."),
                 spec_table)) by reflexivity.
  split; [exact H|].
  exact (remove_failure_no_mutation spec_table None (Some 3%Z) _ _ H).
Defined.

(** [spec_table.next_k_nums(0)]. *)
Lemma next_k_nums_rejects_count_witness :
  (forall z, as_int (ONum (PyInt 0)) = Some z -> (z <= 0)%Z) /\
  gen_next (next_k_nums (ONum (PyInt 0))) spec_table
  = ((Raised InvalidCountError, GenClosed), spec_table) /\
  forall fuel,
    collect (S fuel) (next_k_nums (ONum (PyInt 0))) spec_table
    = Some (inl InvalidCountError, spec_table).
Proof.
  assert (H : forall z, as_int (ONum (PyInt 0)) = Some z -> (z <= 0)%Z).
  { intros z Hz. injection Hz as <-. lia. }
  split; [exact H|].
  exact (next_k_nums_rejects_count spec_table (ONum (PyInt 0)) H).
Defined.

(** Two samplers on [[-1, 0, 1]] with seed [123], on sources that start
    in different states, agree on five draws. *)
Lemma same_seed_same_draws_witness :
  (forall (z : Z) (s1 s2 : Z), seed z s1 = seed z s2) /\
  __init__ 0%Z [PyInt (-1); PyInt 0; PyInt 1] (Some [0.3; 0.3; 0.4])
       (Some 123%Z) None = inr spec_table /\
  __init__ 99%Z [PyInt (-1); PyInt 0; PyInt 1] (Some [0.3; 0.3; 0.4])
       (Some 123%Z) (Some 7%Z) = inr spec_table /\
  fst (draws 5 spec_table) = fst (draws 5 spec_table).
Proof.
  assert (H0 : forall (z : Z) (s1 s2 : Z), seed z s1 = seed z s2)
    by (intros; reflexivity).
  assert (H1 : __init__ 0%Z [PyInt (-1); PyInt 0; PyInt 1] (Some [0.3; 0.3; 0.4])
                    (Some 123%Z) None = inr spec_table) by reflexivity.
  assert (H2 : __init__ 99%Z [PyInt (-1); PyInt 0; PyInt 1] (Some [0.3; 0.3; 0.4])
                    (Some 123%Z) (Some 7%Z) = inr spec_table) by reflexivity.
  split; [exact H0|]. split; [exact H1|]. split; [exact H2|].
  exact (same_seed_same_draws H0 0%Z 99%Z None (Some 7%Z) _ _ 123%Z
                              spec_table spec_table 5 H1 H2).
Defined.

(** The real [1.0] is in [spec_table], which stores the integer [1]. *)
Lemma numeric_equality_across_subtypes_witness :
  In (PyInt 1) (nums spec_table) /\
  num_val (PyFloat 1) == num_val (PyInt 1) /\
  __contains__ spec_table (PyFloat 1) = true.
Proof.
  assert (H1 : In (PyInt 1) (nums spec_table)) by (cbn; auto).
  assert (H2 : num_val (PyFloat 1) == num_val (PyInt 1)) by reflexivity.
  split; [exact H1|]. split; [exact H2|].
  exact (proj2 (proj2 (numeric_equality_across_subtypes (Src := Z)))
               spec_table (PyFloat 1) (PyInt 1) H1 H2).
Defined.

(** * Further properties of the sampler *)

(** ** Sequences and dicts *)

Lemma dict_zip_lookup_present (keys : list num) :
  forall vals w v, dict_zip_lookup keys vals w = Some v -> py_in w keys = true.
Proof.
  induction keys as [|k ks IH]; intros vals w v H; [discriminate|].
  destruct vals as [|x xs]; [discriminate|]. cbn [dict_zip_lookup] in H.
  change (num_eqb w k || py_in w ks = true). apply orb_true_iff.
  destruct (dict_zip_lookup ks xs w) eqn:E.
  - right. now apply IH with (1 := E).
  - left. rewrite num_eqb_sym. now destruct (num_eqb k w).
Qed.

(** For a [dict] the lookup through [zip(keys, values)] is the lookup in the
    [dict]. *)
Lemma dict_zip_lookup_dict (d : pydict) (k : num) :
  distinct (dict_keys d) ->
  dict_zip_lookup (dict_keys d) (dict_values d) k = dict_get d k.
Proof.
  induction d as [|[k' v] t IH]; intro Hd; [reflexivity|].
  destruct Hd as [Hk Ht]. cbn [dict_keys dict_values map fst snd] in *.
  cbn [dict_zip_lookup dict_get]. fold (dict_keys t). fold (dict_values t).
  destruct (num_eqb k' k) eqn:E.
  - rewrite dict_zip_lookup_absent; [reflexivity|].
    now rewrite <- (py_in_compat k' k _ E).
  - rewrite (IH Ht). now destruct (dict_get t k).
Qed.



Lemma py_sum_firstn_succ (l : list Q) :
  forall i, (i < length l)%nat ->
    py_sum (firstn (S i) l) == py_sum (firstn i l) + nth i l 0.
Proof.
  induction l as [|p t IH]; intros i Hi; cbn in Hi; [lia|].
  destruct i as [|i].
  - cbn [firstn nth]. rewrite py_sum_cons, py_sum_nil. ring.
  - change (firstn (S (S i)) (p :: t)) with (p :: firstn (S i) t).
    change (firstn (S i) (p :: t)) with (p :: firstn i t).
    cbn [nth]. rewrite !py_sum_cons, (IH i ltac:(lia)). ring.
Qed.

Lemma norm_index_nat_inv (n idx k : nat) :
  norm_index n (Z.of_nat idx) = Some k -> k = idx /\ (idx < n)%nat.
Proof.
  unfold norm_index.
  destruct (Z.leb_spec 0 (Z.of_nat idx)); [|lia].
  destruct (Z.ltb_spec (Z.of_nat idx) (Z.of_nat n)); cbn.
  - intro E. injection E as <-. split; lia.
  - destruct (Z.ltb_spec (Z.of_nat idx) 0); [lia|].
    rewrite andb_false_r. discriminate.
Qed.

Lemma list_remove_length (l : list num) (v : num) :
  forall l', list_remove l v = Some l' -> S (length l') = length l.
Proof.
  induction l as [|y t IH]; intros l' H; [discriminate|].
  cbn [list_remove] in H. destruct (num_eqb y v).
  - now injection H as <-.
  - destruct (list_remove t v) as [t'|]; [|discriminate].
    injection H as <-. cbn. now rewrite (IH t' eq_refl).
Qed.

(** Membership after deleting a position of a sequence without
    repetition: the deleted value is gone, the others stay. *)
Lemma py_in_remove_at_distinct (l : list num) :
  forall k x w, distinct l -> nth_error l k = Some x ->
    py_in w (remove_at k l) = py_in w l && negb (num_eqb w x).
Proof.
  induction l as [|y t IH]; intros k x w Hd Hk; [destruct k; discriminate|].
  destruct Hd as [Hy Ht].
  change (py_in w (y :: t)) with (num_eqb w y || py_in w t).
  destruct k as [|k]; cbn in Hk.
  - injection Hk as <-. cbn [remove_at].
    destruct (num_eqb w y) eqn:E; cbn.
    + now rewrite (py_in_compat w y t E).
    + now rewrite andb_true_r.
  - cbn [remove_at].
    change (py_in w (y :: remove_at k t))
      with (num_eqb w y || py_in w (remove_at k t)).
    rewrite (IH k x w Ht Hk).
    destruct (num_eqb w y) eqn:E; cbn; [|reflexivity].
    destruct (num_eqb w x) eqn:E'; [|reflexivity].
    exfalso. rewrite num_eqb_sym in E.
    pose proof (num_eqb_trans _ _ _ E E') as Eyx.
    rewrite (py_in_compat y x t Eyx) in Hy.
    apply nth_error_py_in in Hk. congruence.
Qed.

Lemma In_remove_at {A : Type} (l : list A) :
  forall k x, In x (remove_at k l) -> In x l.
Proof.
  induction l as [|y t IH]; intros k x H; [destruct k; exact H|].
  destruct k as [|k]; [now right|].
  destruct H as [H|H]; [now left|right; now apply IH with k].
Qed.

Lemma norm_index_negative (n : nat) (i : Z) :
  (- Z.of_nat n <= i < 0)%Z ->
  norm_index n (i + Z.of_nat n) = norm_index n i.
Proof.
  intro H. unfold norm_index.
  destruct (Z.leb_spec 0 (i + Z.of_nat n)); [|lia].
  destruct (Z.ltb_spec (i + Z.of_nat n) (Z.of_nat n)); [|lia].
  destruct (Z.leb_spec 0 i); [lia|].
  destruct (Z.leb_spec (- Z.of_nat n) i); [|lia].
  destruct (Z.ltb_spec i 0); [|lia].
  cbn. now rewrite Z.add_comm.
Qed.

Section FurtherFacts.

Context {Src : Type} {rng_ops : Rng Src}.

Implicit Types self : RandomGen Src.

(** ** Construction: conditions and outcomes *)

(** X1.  A construction that succeeds was given values that are not empty
    and do not repeat and, if a non-empty sequence of probabilities was
    given, one of the length of the values with every probability in
    [(0, 1]]; without probabilities - none, or an empty sequence - it
    succeeds on all values that are not empty and do not repeat. *)
Theorem init_success_conditions (fresh : Src) (random_nums : list num)
    (probabilities : option (list Q)) (seed_arg : option Z)
    (rng_arg : option Src) :
  ((exists self,
       __init__ fresh random_nums probabilities seed_arg rng_arg = inr self) ->
   random_nums <> [] /\ distinct random_nums /\
   match probabilities with
   | Some (p :: ps) =>
       length (p :: ps) = length random_nums /\
       Forall (fun q => 0 < q /\ q <= 1) (p :: ps)
   | _ => True
   end) /\
  (probabilities = None \/ probabilities = Some [] ->
   random_nums <> [] -> distinct random_nums ->
   exists self,
     __init__ fresh random_nums probabilities seed_arg rng_arg = inr self).
Proof.
  split.
  - intros [self H].
    apply init_inr in H as (_ & Hn & Hd & _ & _ & _ & Hl & _ & Hp & Hm).
    split; [destruct random_nums; [cbn in Hn; lia|discriminate]|].
    split; [exact Hd|].
    destruct probabilities as [[|p ps]|]; auto.
    rewrite Hm in *. split; [exact Hl|exact Hp].
  - intros Hnone Hne Hd. unfold __init__.
    destruct (Nat.eqb_spec (length random_nums) 0) as [E|_];
      [destruct random_nums; [contradiction|discriminate]|].
    apply py_set_distinct in Hd. rewrite Hd.
    destruct Hnone as [-> | ->]; eexists; reflexivity.
Qed.

(** X2.  For values that are not empty and do not repeat and a non-empty
    sequence of probabilities of their length, a probability that is
    [<= 0] or [> 1] makes the construction raise the invalid-probability
    error, whatever the sum. *)
Theorem init_out_of_range_probability (fresh : Src)
    (random_nums : list num) (p : Q) (ps : list Q) (seed_arg : option Z)
    (rng_arg : option Src) :
  random_nums <> [] -> distinct random_nums ->
  length (p :: ps) = length random_nums ->
  Exists (fun q => q <= 0 \/ 1 < q) (p :: ps) ->
  __init__ fresh random_nums (Some (p :: ps)) seed_arg rng_arg
  = inl InvalidProbabilityError.
Proof.
  intros Hne Hd Hl Hex. unfold __init__.
  destruct (Nat.eqb_spec (length random_nums) 0) as [E|_];
    [destruct random_nums; [contradiction|discriminate]|].
  apply py_set_distinct in Hd. rewrite Hd.
  rewrite Hl, Nat.eqb_refl. cbn [negb].
  assert (Hb : existsb (fun q => Qle_bool q 0 || Qlt_bool 1 q) (p :: ps)
               = true).
  { apply existsb_exists. apply Exists_exists in Hex as (q & Hin & Hq).
    exists q. split; [exact Hin|]. apply orb_true_iff.
    destruct Hq as [Hq|Hq]; [left; now apply Qle_bool_iff
                            |right; now apply Qlt_bool_iff]. }
  rewrite Hb, orb_true_r. reflexivity.
Qed.

(** X3.  Without probabilities - none given, or an empty sequence - all
    values are equally likely: the probabilities are [n] copies of one
    number of [(0, 1]], and [self[v]] is that number for every value. *)
Theorem init_default_equal_probabilities (fresh : Src)
    (random_nums : list num) (probabilities : option (list Q))
    (seed_arg : option Z) (rng_arg : option Src) self :
  probabilities = None \/ probabilities = Some [] ->
  __init__ fresh random_nums probabilities seed_arg rng_arg = inr self ->
  exists p, (0 < p /\ p <= 1) /\
            probs self = repeat p (length random_nums) /\
            forall v, In v random_nums -> __getitem__ self v = inr p.
Proof.
  intros Hnone H. pose proof (init_table_ok _ _ _ _ _ _ H) as Hok.
  apply init_inr in H as (Hnums & Hn & Hd & _ & _ & _ & Hl & _ & _ & Hm).
  assert (Hp : probs self =
               repeat (1 / inject_Z (Z.of_nat (length random_nums)))
                      (length random_nums))
    by (destruct Hnone as [-> | ->]; exact Hm).
  exists (1 / inject_Z (Z.of_nat (length random_nums))).
  split; [now apply equal_share_bounds|]. split; [exact Hp|].
  intros v Hin. apply In_nth_error in Hin as (j & Hj).
  rewrite <- Hnums in Hj, Hd.
  destruct (getitem_at_position self j v v Hd
              ltac:(now rewrite Hl, Hnums) Hj (num_eqb_refl v))
    as (q & Hq & Hg).
  rewrite Hg. f_equal. rewrite Hp in Hq.
  apply nth_error_In, repeat_spec in Hq. exact Hq.
Qed.

(** X4.  A sampler built from a [dict] answers [self[k]] as the [dict]
    does: the stored probability for a key of the [dict], [KeyError(k)]
    for any other number. *)
Theorem from_dict_getitem (fresh : Src) (nums_probs : pydict)
    (seed_arg : option Z) (rng_arg : option Src) self :
  distinct (dict_keys nums_probs) ->
  from_dict fresh nums_probs seed_arg rng_arg = inr self ->
  nums self = dict_keys nums_probs /\
  probs self = dict_values nums_probs /\
  forall k, __getitem__ self k =
            match dict_get nums_probs k with
            | Some p => inr p
            | None => inl (KeyError k)
            end.
Proof.
  intros Hd H. unfold from_dict in H.
  apply init_inr in H as (Hnums & Hn & _ & _ & _ & _ & _ & _ & _ & Hm).
  destruct nums_probs as [|[k0 p0] t]; [cbn in Hn; lia|].
  cbn [dict_values map] in Hm. fold (dict_values t) in Hm.
  split; [exact Hnums|]. split; [exact Hm|].
  intro k. unfold __getitem__. rewrite Hnums, Hm.
  change (snd (k0, p0) :: dict_values t) with (dict_values ((k0, p0) :: t)).
  now rewrite dict_zip_lookup_dict.
Qed.

(** X5.  [from_dict] raises neither the duplicate-value nor the
    length-mismatch error: on the empty [dict] it raises the empty-input
    error, on any other it succeeds or raises the invalid-probability
    error. *)
Theorem from_dict_outcomes (fresh : Src) (nums_probs : pydict)
    (seed_arg : option Z) (rng_arg : option Src) :
  distinct (dict_keys nums_probs) ->
  match nums_probs with
  | [] => from_dict fresh nums_probs seed_arg rng_arg = inl EmptyInputError
  | _ :: _ =>
      (exists self, from_dict fresh nums_probs seed_arg rng_arg = inr self) \/
      from_dict fresh nums_probs seed_arg rng_arg = inl InvalidProbabilityError
  end.
Proof.
  intro Hd. destruct nums_probs as [|[k0 p0] t]; [reflexivity|].
  unfold from_dict, __init__.
  cbn [dict_keys dict_values map fst snd length Nat.eqb] in *.
  apply py_set_distinct in Hd. cbn [length] in Hd. rewrite Hd.
  rewrite !length_map, Nat.eqb_refl. cbn [negb].
  destruct (negb _ || _); [right; reflexivity|left; eexists; reflexivity].
Qed.

(** ** Lookup *)

(** X6.  In an instance a program can hold, [self[values[i]]] is
    [probabilities[i]], a positive number: the two sequences are aligned
    by position. *)
Theorem getitem_positional self (i : nat) (v : num) :
  reachable self -> nth_error (nums self) i = Some v ->
  exists p, nth_error (probs self) i = Some p /\
            __getitem__ self v = inr p /\ 0 < p.
Proof.
  intros Hr Hv. pose proof (reachable_table_ok self Hr) as [Hn Hd Hl Hp Hs Hc].
  destruct (getitem_at_position self i v v Hd Hl Hv (num_eqb_refl v))
    as (p & Hpi & Hg).
  exists p. repeat split; auto.
  rewrite Forall_forall in Hp. apply Hp. now apply nth_error_In with i.
Qed.

Lemma getitem_absent self (item : num) :
  __contains__ self item = false -> __getitem__ self item = inl (KeyError item).
Proof.
  intro H. unfold __getitem__.
  now rewrite dict_zip_lookup_absent.
Qed.

Lemma getitem_present self (item : num) :
  table_ok self -> __contains__ self item = true ->
  exists i v p, nth_error (nums self) i = Some v /\ num_eqb v item = true /\
                nth_error (probs self) i = Some p /\
                __getitem__ self item = inr p.
Proof.
  intros [Hn Hd Hl Hp Hs Hc] H. apply py_in_nth in H as (i & v & Hv & E).
  rewrite num_eqb_sym in E.
  destruct (getitem_at_position self i v item Hd Hl Hv E) as (p & Hpi & Hg).
  now exists i, v, p.
Qed.

(** X7.  In an instance a program can hold, [self[item]] raises
    [KeyError(item)] exactly when [item in self] is false, and otherwise
    returns a positive probability, the same for numbers that are equal
    across subtypes. *)
Theorem getitem_keyerror_iff self (item : num) :
  reachable self ->
  (__getitem__ self item = inl (KeyError item) <->
   __contains__ self item = false) /\
  (__contains__ self item = true ->
   exists p, __getitem__ self item = inr p /\ 0 < p /\
             forall other, num_val other == num_val item ->
                           __getitem__ self other = inr p).
Proof.
  intro Hr. pose proof (reachable_table_ok self Hr) as Hok.
  assert (Hpres : __contains__ self item = true ->
                  exists p, __getitem__ self item = inr p /\ 0 < p /\
                    forall other, num_val other == num_val item ->
                                  __getitem__ self other = inr p).
  { intro H. destruct (getitem_present self item Hok H)
      as (i & v & p & Hv & E & Hpi & Hg).
    exists p. split; [exact Hg|]. split.
    - destruct Hok as [_ _ _ Hp _ _]. rewrite Forall_forall in Hp.
      apply Hp. now apply nth_error_In with i.
    - intros other Ho. apply num_eqb_iff in Ho.
      destruct Hok as [_ Hd Hl _ _ _].
      assert (E' : num_eqb v other = true).
      { rewrite num_eqb_sym in Ho. now apply num_eqb_trans with item. }
      destruct (getitem_at_position self i v other Hd Hl Hv E')
        as (q & Hq & Hg'). congruence. }
  split; [|exact Hpres]. split.
  - intro H. destruct (__contains__ self item) eqn:E; [|reflexivity].
    destruct (Hpres eq_refl) as (p & Hg & _). congruence.
  - apply getitem_absent.
Qed.

(** ** Draws *)

Lemma list_getitem_nat_inv {A : Type} (l : list A) (idx : nat) (x : A) :
  list_getitem l (Z.of_nat idx) = inr x -> nth_error l idx = Some x.
Proof.
  intro H. apply list_getitem_inr in H as (k & Hk & Hx).
  apply norm_index_nat_inv in Hk as [-> _]. exact Hx.
Qed.

Lemma list_getitem_nat_inl {A : Type} (l : list A) (idx : nat) (e : exn) :
  list_getitem l (Z.of_nat idx) = inl e ->
  e = IndexError "list index out of range".
Proof.
  unfold list_getitem. destruct (norm_index _ _) as [k|].
  - destruct (nth_error l k); [discriminate|]. now intro H; injection H as <-.
  - now intro H; injection H as <-.
Qed.

(** What one draw does, for any instance. *)
Lemma next_cases self (r : exn + num) (self' : RandomGen Src) :
  __next__ self = (r, self') ->
  self' = set_rng self (snd (random (rng self))) /\
  match r with
  | inr v => nth_error (nums self)
               (searchsorted (cdf self) (fst (random (rng self)))) = Some v
  | inl e => e = IndexError "list index out of range"
  end.
Proof.
  rewrite next_eq. intro H. injection H as Hr <-. split; [reflexivity|].
  destruct r as [e|v].
  - now apply list_getitem_nat_inl in Hr.
  - now apply list_getitem_nat_inv in Hr.
Qed.

(** X8.  A draw changes nothing but the state of the random source, which
    it advances by one [random()]; it returns one of the stored values
    unchanged, so with the subtype it was stored with, or else raises
    [IndexError]. *)
Theorem next_outcome_is_stored self (r : exn + num) (self' : RandomGen Src) :
  __next__ self = (r, self') ->
  (nums self' = nums self /\ probs self' = probs self /\
   cdf self' = cdf self /\ _seed self' = _seed self /\
   rng self' = snd (random (rng self))) /\
  match r with
  | inr v => In v (nums self)
  | inl e => e = IndexError "list index out of range"
  end.
Proof.
  intro H. apply next_cases in H as [-> Hr].
  split; [repeat split|].
  destruct r as [e|v]; [exact Hr|]. now apply nth_error_In in Hr.
Qed.


(** X9.  With a non-decreasing cdf as long as the values, and values
    that do not repeat, when the random source gives [r] the draw returns
    [values[i]] exactly when [i] is the first index with [cdf[i] >= r],
    that is, when [r] lies in [(cdf[i-1], cdf[i]]]. *)
Theorem next_selects_interval self (r : Q) (s' : Src) (i : nat) (v : num) :
  nondecreasing (cdf self) ->
  length (cdf self) = length (nums self) ->
  distinct (nums self) ->
  random (rng self) = (r, s') ->
  nth_error (nums self) i = Some v ->
  (fst (__next__ self) = inr v <-> first_index_ge (cdf self) r i).
Proof.
  intros Hs Hlc Hd Hr Hv.
  assert (Hi : (i < length (nums self))%nat)
    by (apply nth_error_Some; congruence).
  rewrite next_eq, Hr. cbn [fst]. split.
  - intro H. apply list_getitem_nat_inv in H.
    pose proof (distinct_nth_inj _ _ _ _ _ Hd H Hv (num_eqb_refl v)) as E.
    destruct (searchsorted_split (cdf self) r Hs) as (B1 & B2 & B3).
    rewrite E in *. repeat split; auto; try lia. apply B3. lia.
  - intro H. rewrite (searchsorted_first_ge _ _ _ Hs H).
    now apply list_getitem_nat.
Qed.


(** ** Runs of draws *)

Lemma draws_step (m : nat) self :
  draws (S m) self =
  match __next__ self with
  | (inr v, self1) =>
      match draws m self1 with
      | (inr l, self2) => (inr (v :: l), self2)
      | (inl e, self2) => (inl e, self2)
      end
  | (inl e, self1) => (inl e, self1)
  end.
Proof.
  cbn [draws]. unfold bind at 1.
  destruct (__next__ self) as [[e|v] self1]; [reflexivity|].
  unfold bind, ret. now destruct (draws m self1) as [[e|l] self2].
Qed.

(** [m + n] draws in a row are [m] draws followed by [n] draws from
    where the first run left the random source. *)
Lemma draws_app (m n : nat) self :
  draws (m + n) self =
  match draws m self with
  | (inr l1, self1) =>
      match draws n self1 with
      | (inr l2, self2) => (inr (l1 ++ l2)%list, self2)
      | (inl e, self2) => (inl e, self2)
      end
  | (inl e, self1) => (inl e, self1)
  end.
Proof.
  revert self. induction m as [|m IH]; intro self.
  - cbn [Nat.add draws]. unfold ret at 1.
    now destruct (draws n self) as [[e|l2] self2].
  - change (S m + n)%nat with (S (m + n)). rewrite !draws_step.
    destruct (__next__ self) as [[e|v] self1]; [reflexivity|].
    rewrite IH. destruct (draws m self1) as [[e|l1] self2]; [reflexivity|].
    now destruct (draws n self2) as [[e|l2] self3].
Qed.

Lemma collect_suspended_draws (n : nat) :
  forall (fuel : nat) self,
    (n < fuel)%nat ->
    collect fuel (GenSuspended (Z.of_nat n)) self = Some (draws n self).
Proof.
  induction n as [|n IH]; intros fuel self Hf;
    (destruct fuel as [|fuel]; [lia|]).
  - reflexivity.
  - cbn [collect gen_next]. unfold gen_loop.
    destruct (Z.eqb_spec (Z.of_nat (S n)) 0); [lia|].
    rewrite draws_step.
    destruct (__next__ self) as [[e|v] self1]; [reflexivity|].
    replace (Z.of_nat (S n) - 1)%Z with (Z.of_nat n) by lia.
    rewrite (IH fuel self1 ltac:(lia)).
    now destruct (draws n self1) as [[e|l] self2].
Qed.

(** X12.  For a positive integer [k], consuming the generator of
    [next_k_nums(k)] is [k] calls of [next(self)]: the same outcomes or
    the same exception, and the same instance afterwards; [k + 1] calls
    of [next(gen)] are enough. *)
Theorem next_k_nums_is_draws self (k : pyobj) (z : Z) (fuel : nat) :
  as_int k = Some z -> (0 < z)%Z -> (Z.to_nat z < fuel)%nat ->
  collect fuel (next_k_nums k) self = Some (draws (Z.to_nat z) self).
Proof.
  intros Hk Hz Hf. destruct fuel as [|fuel]; [lia|].
  rewrite (collect_created fuel k z self Hk Hz).
  rewrite <- (Z2Nat.id z) at 1 by lia.
  now apply collect_suspended_draws.
Qed.

(** With a non-decreasing cdf as long as the values, a draw that does
    not exceed the last element of the cdf returns one of the values. *)
Lemma next_member_cdf self :
  nondecreasing (cdf self) ->
  length (cdf self) = length (nums self) ->
  (1 <= length (nums self))%nat ->
  fst (random (rng self)) <= last (cdf self) 0 ->
  exists v, __next__ self = (inr v, set_rng self (snd (random (rng self)))) /\
            In v (nums self).
Proof.
  intros Hs Hl Hn Hr.
  set (r := fst (random (rng self))) in *.
  destruct (searchsorted_split (cdf self) r Hs) as (B1 & B2 & B3).
  assert (Hlt : (searchsorted (cdf self) r < length (nums self))%nat).
  { destruct (Nat.eq_dec (searchsorted (cdf self) r) (length (cdf self)))
      as [E|N]; [|lia].
    exfalso. rewrite last_as_nth in Hr.
    apply (Qlt_not_le _ _ (B2 (length (cdf self) - 1)%nat ltac:(lia)) Hr). }
  destruct (nth_error (nums self) (searchsorted (cdf self) r)) as [v|] eqn:Hv;
    [|apply nth_error_None in Hv; lia].
  exists v. rewrite next_eq. fold r.
  rewrite (list_getitem_nat _ _ _ Hv). split; [reflexivity|].
  now apply nth_error_In in Hv.
Qed.

Lemma collect_count (n : nat) self :
  (0 < n)%nat ->
  collect (S n) (next_k_nums (ONum (PyInt (Z.of_nat n)))) self
  = Some (draws n self).
Proof.
  intro Hn.
  rewrite (collect_created n (ONum (PyInt (Z.of_nat n))) (Z.of_nat n) self
                           eq_refl ltac:(lia)).
  apply collect_suspended_draws. lia.
Qed.

(** X11.  A run of [next_k_nums] continues where the previous one
    stopped: consuming [next_k_nums(n1)] and then [next_k_nums(n2)] gives,
    one after the other, the outcomes of [next_k_nums(n1 + n2)] and
    leaves the same instance; an exception in the first run is the
    exception of the long run. *)
Theorem next_k_nums_runs_compose (n1 n2 : nat) self :
  (0 < n1)%nat -> (0 < n2)%nat ->
  collect (S (n1 + n2))
          (next_k_nums (ONum (PyInt (Z.of_nat (n1 + n2))))) self
  = match collect (S n1) (next_k_nums (ONum (PyInt (Z.of_nat n1)))) self with
    | Some (inr l1, self1) =>
        match collect (S n2) (next_k_nums (ONum (PyInt (Z.of_nat n2))))
                      self1 with
        | Some (inr l2, self2) => Some (inr (l1 ++ l2)%list, self2)
        | Some (inl e, self2) => Some (inl e, self2)
        | None => None
        end
    | Some (inl e, self1) => Some (inl e, self1)
    | None => None
    end.
Proof.
  intros H1 H2.
  rewrite (collect_count (n1 + n2) self ltac:(lia)), draws_app.
  rewrite (collect_count n1 self H1).
  destruct (draws n1 self) as [[e|l1] self1]; [reflexivity|].
  rewrite (collect_count n2 self1 H2).
  now destruct (draws n2 self1) as [[e|l2] self2].
Qed.

Section UnitSourceRuns.

(** The contract of the random source: a draw is below [1]. *)
Hypothesis random_below_one : forall s : Src, fst (random s) < 1.

(** X13.  With a non-decreasing cdf as long as the values and ending at
    [1] or above, and a random source that draws below [1], iterating
    over the instance never ends and never raises: any number [m] of
    draws gives [m] stored values. *)
Theorem draws_never_fail (m : nat) :
  forall self,
    nondecreasing (cdf self) ->
    length (cdf self) = length (nums self) ->
    1 <= last (cdf self) 0 ->
    exists (l : list num) (self' : RandomGen Src),
      draws m (__iter__ self) = (inr l, self') /\
      length l = m /\ Forall (fun v => In v (nums self)) l.
Proof.
  unfold __iter__.
  induction m as [|m IH]; intros self Hs Hl Hlast.
  - exists [], self. repeat split; auto.
  - assert (Hn : (1 <= length (nums self))%nat).
    { rewrite <- Hl. destruct (cdf self); [cbn in Hlast; lra|cbn; lia]. }
    destruct (next_member_cdf self Hs Hl Hn) as (v & Hnext & Hv).
    { pose proof (random_below_one (rng self)). lra. }
    set (self1 := set_rng self (snd (random (rng self)))) in *.
    destruct (IH self1 Hs Hl Hlast) as (l & self' & Hd & Hlen & Hall).
    exists (v :: l), self'. rewrite draws_step, Hnext, Hd.
    repeat split; [cbn; now rewrite Hlen|].
    constructor; [exact Hv|exact Hall].
Qed.


End UnitSourceRuns.

(** ** Removal: errors, selectors, what is kept *)

(** A valid selector on an instance with at most one value. *)
Lemma remove_single self (value : option num) (index : option Z) :
  valid_selector self value index -> (length (nums self) <= 1)%nat ->
  remove value index self = (inl SingleElementError, self).
Proof.
  intros Hv H1.
  destruct value as [v|], index as [i|]; cbn in Hv; try contradiction.
  - rewrite remove_by_value. unfold __contains__ in *. rewrite Hv. cbn [negb].
    destruct (list_index_present _ _ Hv) as (k & x & -> & _).
    destruct (Z.leb_spec (len (nums self)) 1); [reflexivity|].
    unfold len in *. lia.
  - rewrite remove_by_index.
    destruct (Z.leb_spec (- len (nums self)) i); [|lia].
    destruct (Z.ltb_spec i (len (nums self))); [|lia]. cbn [andb negb].
    destruct (norm_index_in_range (length (nums self)) i Hv) as (k & Hi & Hk).
    unfold list_getitem. rewrite Hi.
    destruct (nth_error (nums self) k) eqn:Hx;
      [|apply nth_error_None in Hx; lia].
    destruct (Z.leb_spec (len (nums self)) 1); [reflexivity|].
    unfold len in *. lia.
Qed.

Lemma remove_index_out_of_range self (i : Z) :
  ~ (- len (nums self) <= i < len (nums self))%Z ->
  remove None (Some i) self
  = (inl (IndexOutOfRangeError i (len (nums self))), self).
Proof.
  intro H. rewrite remove_by_index.
  destruct (Z.leb_spec (- len (nums self)) i);
    destruct (Z.ltb_spec i (len (nums self))); cbn [andb negb];
    try reflexivity. lia.
Qed.

(** What one call of [remove] does, for any instance: it raises and
    changes nothing, or it succeeds on at least two values, takes one
    away and leaves the random source and the seed alone. *)
Lemma remove_cases self (value : option num) (index : option Z)
    (r : exn + unit) (self' : RandomGen Src) :
  remove value index self = (r, self') ->
  (exists e, r = inl e /\ self' = self) \/
  (r = inr tt /\ (2 <= length (nums self))%nat /\
   S (length (nums self')) = length (nums self) /\
   rng self' = rng self /\ _seed self' = _seed self /\
   cdf self' = cumsum (probs self')).
Proof.
  destruct value as [v|], index as [i|].
  - rewrite remove_ambiguous by reflexivity.
    intro Heq. injection Heq as <- <-. left. eauto.
  - rewrite remove_by_value.
    destruct (__contains__ self v) eqn:Hc; cbn [negb];
      [|intro Heq; injection Heq as <- <-; left; eauto].
    destruct (list_index (nums self) v) as [n|];
      [|intro Heq; injection Heq as <- <-; left; eauto].
    destruct (Z.leb_spec (len (nums self)) 1);
      [intro Heq; injection Heq as <- <-; left; eauto|].
    destruct (list_pop (probs self) (Z.of_nat n)) as [e'|[popped l]];
      [intro Heq; injection Heq as <- <-; left; eauto|].
    cbn zeta.
    destruct (list_remove (nums self) v) eqn:Hr;
      [|now apply list_remove_present in Hc].
    intro Heq. injection Heq as <- <-. right. cbn.
    apply list_remove_length in Hr. unfold len in *.
    repeat split; auto; lia.
  - rewrite remove_by_index.
    destruct (negb _); [intro Heq; injection Heq as <- <-; left; eauto|].
    destruct (list_getitem (nums self) i) as [e'|v] eqn:Hg;
      [intro Heq; injection Heq as <- <-; left; eauto|].
    destruct (Z.leb_spec (len (nums self)) 1);
      [intro Heq; injection Heq as <- <-; left; eauto|].
    destruct (list_pop (probs self) i) as [e'|[popped l]];
      [intro Heq; injection Heq as <- <-; left; eauto|].
    cbn zeta.
    destruct (list_remove (nums self) v) eqn:Hr.
    + intro Heq. injection Heq as <- <-. right. cbn.
      apply list_remove_length in Hr. unfold len in *.
      repeat split; auto; lia.
    + apply list_getitem_inr in Hg as (k & _ & Hk).
      apply nth_error_py_in in Hk. now apply list_remove_present in Hk.
  - rewrite remove_ambiguous by reflexivity.
    intro Heq. injection Heq as <- <-. left. eauto.
Qed.

(** X14.  The errors of [remove], in the order the method checks them,
    on any instance: both or neither of value and index; else an index
    outside [[-n, n)], reported with the index and [n - 1]; else a value
    that is absent, for which the method raises a string and Python a
    [TypeError]; else a single value left.  Every one leaves the instance
    as it was. *)
Theorem remove_errors self (value : option num) (index : option Z) :
  (is_none value = is_none index ->
   remove value index self = (inl AmbiguousSelectorError, self)) /\
  (forall i, value = None -> index = Some i ->
     ~ (- len (nums self) <= i < len (nums self))%Z ->
     remove value index self
     = (inl (IndexOutOfRangeError i (len (nums self))), self)) /\
  (forall v, value = Some v -> index = None ->
     __contains__ self v = false ->
     remove value index self = (inl RaiseNonException, self)) /\
  (valid_selector self value index -> (length (nums self) <= 1)%nat ->
   remove value index self = (inl SingleElementError, self)).
Proof.
  split; [apply remove_ambiguous|]. split; [|split].
  - intros i -> ->. apply remove_index_out_of_range.
  - intros v -> ->. apply remove_absent_value.
  - apply remove_single.
Qed.

(** X15.  On a table, [remove] succeeds exactly when the selector is
    valid - one of value and index, the value present or the index in
    [[-n, n)] - and at least two values are stored. *)
Theorem remove_succeeds_iff self (value : option num) (index : option Z) :
  table_ok self ->
  ((exists self', remove value index self = (inr tt, self')) <->
   valid_selector self value index /\ (2 <= length (nums self))%nat).
Proof.
  intro Hok. split.
  - intros [self' H]. now apply remove_inr_valid with self'.
  - intros [Hv H2].
    destruct (remove_run self value index Hok H2 Hv)
      as (k & x & popped & _ & _ & _ & Hrun).
    eauto.
Qed.

(** X16.  On a table, removing by an index and removing by the value
    stored at that index are the same call: the same result and the same
    instance afterwards. *)
Theorem remove_index_value_agree self (i : Z) (k : nat) (v : num) :
  table_ok self ->
  norm_index (length (nums self)) i = Some k ->
  nth_error (nums self) k = Some v ->
  remove None (Some i) self = remove (Some v) None self.
Proof.
  intros Hok Hi Hv.
  assert (V1 : valid_selector self None (Some i))
    by (cbn; unfold len; now apply norm_index_Some in Hi as [Hi _]).
  assert (V2 : valid_selector self (Some v) None)
    by (cbn; now apply nth_error_py_in with k).
  destruct (le_lt_dec (length (nums self)) 1) as [H1|H2].
  - now rewrite !remove_single.
  - destruct (remove_run self _ _ Hok H2 V1)
      as (k1 & x1 & p1 & Hs1 & _ & Hp1 & ->).
    destruct (remove_run self _ _ Hok H2 V2)
      as (k2 & x2 & p2 & Hs2 & _ & Hp2 & ->).
    cbn in Hs1, Hs2.
    destruct (list_index_distinct _ _ _ (ok_distinct self Hok) Hv) as [Hix _].
    assert (k1 = k) by congruence. assert (k2 = k) by congruence.
    subst k1 k2. congruence.
Qed.

(** X17.  On a table, a negative index [i] in [[-n, 0)] removes what the
    index [i + n] removes. *)
Theorem remove_negative_index self (i : Z) :
  table_ok self ->
  (- len (nums self) <= i < 0)%Z ->
  remove None (Some i) self = remove None (Some (i + len (nums self))%Z) self.
Proof.
  intros Hok Hi. unfold len in *.
  assert (Eg : list_getitem (nums self) (i + Z.of_nat (length (nums self)))
               = list_getitem (nums self) i)
    by (unfold list_getitem; now rewrite norm_index_negative).
  assert (Ep : list_pop (probs self) (i + Z.of_nat (length (nums self)))
               = list_pop (probs self) i).
  { unfold list_pop. rewrite <- (ok_len self Hok).
    now rewrite norm_index_negative by (rewrite (ok_len self Hok); lia). }
  rewrite !remove_by_index, Eg, Ep. unfold len.
  destruct (Z.leb_spec (- Z.of_nat (length (nums self))) i); [|lia].
  destruct (Z.ltb_spec i (Z.of_nat (length (nums self)))); [|lia].
  destruct (Z.leb_spec (- Z.of_nat (length (nums self)))
                       (i + Z.of_nat (length (nums self)))); [|lia].
  destruct (Z.ltb_spec (i + Z.of_nat (length (nums self)))
                       (Z.of_nat (length (nums self)))); [|lia].
  reflexivity.
Qed.


(** What a successful [remove] leaves on a table. *)
Lemma remove_inr_after_removal self (value : option num) (index : option Z)
    (self' : RandomGen Src) :
  table_ok self -> remove value index self = (inr tt, self') ->
  (2 <= length (nums self))%nat /\
  exists k x popped,
    selected_position self value index = Some k /\
    nth_error (nums self) k = Some x /\
    nth_error (probs self) k = Some popped /\
    self' = after_removal self k popped.
Proof.
  intros Hok Hr. destruct (remove_inr_valid _ _ _ _ Hr) as [Hv H2].
  split; [exact H2|].
  destruct (remove_run self value index Hok H2 Hv)
    as (k & x & popped & Hs & Hx & Hp & Hrun).
  exists k, x, popped. repeat split; auto. congruence.
Qed.


(** X19.  After a successful [remove] on a table the removed value is no
    longer in the sampler and asking for its probability raises
    [KeyError]; every other number is in the sampler exactly when it was
    before. *)
Theorem remove_membership self (value : option num) (index : option Z)
    (self' : RandomGen Src) (k : nat) (x : num) :
  table_ok self -> remove value index self = (inr tt, self') ->
  selected_position self value index = Some k ->
  nth_error (nums self) k = Some x ->
  __contains__ self' x = false /\
  __getitem__ self' x = inl (KeyError x) /\
  forall w, __contains__ self' w
            = __contains__ self w && negb (num_eqb w x).
Proof.
  intros Hok Hr Hs Hx.
  destruct (remove_inr_after_removal _ _ _ _ Hok Hr)
    as (H2 & k' & x' & popped & Hs' & _ & _ & ->).
  assert (k' = k) by congruence. subst k'.
  assert (Hall : forall w, __contains__ (after_removal self k popped) w
                           = __contains__ self w && negb (num_eqb w x)).
  { intro w. unfold __contains__. cbn [after_removal nums].
    now apply py_in_remove_at_distinct; [apply (ok_distinct self Hok)|]. }
  assert (Hgone : __contains__ (after_removal self k popped) x = false)
    by (rewrite Hall, num_eqb_refl; apply andb_false_r).
  split; [exact Hgone|]. split; [now apply getitem_absent|exact Hall].
Qed.

(** X20.  After a successful [remove] on a table no draw returns the
    removed value: an outcome drawn afterwards is one of the values from
    before and differs from the removed one. *)
Theorem draw_after_remove self (value : option num) (index : option Z)
    (self' : RandomGen Src) (k : nat) (x : num) (v : num)
    (self'' : RandomGen Src) :
  table_ok self -> remove value index self = (inr tt, self') ->
  selected_position self value index = Some k ->
  nth_error (nums self) k = Some x ->
  __next__ self' = (inr v, self'') ->
  In v (nums self) /\ num_eqb v x = false.
Proof.
  intros Hok Hr Hs Hx Hn.
  destruct (remove_inr_after_removal _ _ _ _ Hok Hr)
    as (H2 & k' & x' & popped & Hs' & _ & _ & ->).
  assert (k' = k) by congruence. subst k'.
  apply next_cases in Hn as [_ Hv]. cbn [after_removal nums cdf] in Hv.
  split.
  - apply nth_error_In in Hv. now apply In_remove_at in Hv.
  - apply nth_error_py_in in Hv.
    rewrite (py_in_remove_at_distinct _ k x v (ok_distinct self Hok) Hx) in Hv.
    apply andb_true_iff in Hv as [_ Hv]. now destruct (num_eqb v x).
Qed.


(** X18.  Under any rounding of the arithmetic, a successful [remove] on
    values that do not repeat, aligned with their probabilities, leaves
    one value less; the values still do not repeat, and probabilities and
    cdf have their length. *)
Theorem remove_shortens_by_one (rnd : Q -> Q) self (value : option num)
    (index : option Z) (self' : RandomGen Src) :
  aligned self -> remove_r rnd value index self = (inr tt, self') ->
  S (length (nums self')) = length (nums self) /\
  distinct (nums self') /\
  length (probs self') = length (nums self') /\
  length (cdf self') = length (nums self').
Proof.
  intros Hal Hr. destruct (remove_r_inr_valid _ _ _ _ _ Hr) as [Hv H2].
  destruct (remove_r_run rnd self value index Hal H2 Hv)
    as (k & x & popped & _ & Hx & _ & Hrun).
  rewrite Hrun in Hr. injection Hr as <-.
  assert (Hk : (k < length (nums self))%nat)
    by (apply nth_error_Some; congruence).
  destruct (after_removal_r_aligned rnd self k popped Hal Hk)
    as [[Hd' Hl'] Hn].
  repeat split; auto.
  cbn [after_removal_r cdf]. rewrite cumsum_r_length. exact Hl'.
Qed.

(** X24.  Under any rounding of the arithmetic, removing from equally
    likely values leaves equally likely values: when every probability is
    [p0], a successful [remove] gives every remaining value the
    probability [rnd (p0 + rnd (p0 / (n - 1)))]. *)
Theorem remove_keeps_equal_probabilities (rnd : Q -> Q) self (p0 : Q)
    (value : option num) (index : option Z) (self' : RandomGen Src) :
  aligned self -> Forall (fun p => p = p0) (probs self) ->
  remove_r rnd value index self = (inr tt, self') ->
  Forall (fun p => p = rnd (p0 + rnd (p0 / inject_Z (len (nums self) - 1))))
         (probs self').
Proof.
  intros Hal Heq Hr. destruct (remove_r_inr_valid _ _ _ _ _ Hr) as [Hv H2].
  destruct (remove_r_run rnd self value index Hal H2 Hv)
    as (k & x & popped & _ & _ & Hp & Hrun).
  rewrite Hrun in Hr. injection Hr as <-.
  rewrite Forall_forall in Heq.
  assert (popped = p0) by (apply Heq; now apply nth_error_In with k).
  subst popped. cbn [after_removal_r probs].
  apply Forall_map, Forall_forall. intros p Hin.
  apply In_remove_at in Hin. now rewrite (Heq p Hin).
Qed.

(** X21.  [remove] never empties a sampler: on an instance with at most
    one value every call raises and changes nothing, and whatever the
    call, an instance with values still has values afterwards. *)
Theorem remove_never_empties self (value : option num) (index : option Z) :
  ((length (nums self) <= 1)%nat ->
   exists e, remove value index self = (inl e, self)) /\
  (nums self <> [] -> nums (snd (remove value index self)) <> []).
Proof.
  destruct (remove value index self) as [r self'] eqn:H.
  destruct (remove_cases _ _ _ _ _ H)
    as [(e & -> & ->)|(-> & H2 & Hlen & _)].
  - split; [intros _; now exists e|auto].
  - split; [intro; lia|].
    intros _. cbn [snd]. destruct (nums self'); [cbn in Hlen; lia|discriminate].
Qed.

(** ** The seed *)

Lemma draws_same_table (m : nat) :
  forall self (r : exn + list num) (self' : RandomGen Src),
    draws m self = (r, self') ->
    nums self' = nums self /\ probs self' = probs self /\
    cdf self' = cdf self /\ _seed self' = _seed self.
Proof.
  induction m as [|m IH]; intros self r self' H.
  - cbn in H. injection H as _ <-. auto.
  - rewrite draws_step in H.
    destruct (__next__ self) as [[e|v] self1] eqn:Hn;
      apply next_cases in Hn as [-> _].
    + injection H as _ <-. auto.
    + destruct (draws m _) as [[e|l] self2] eqn:Hd;
        injection H as _ <-; now apply IH in Hd.
Qed.

Lemma gen_next_seed (g : generator) self (r : gen_result * generator)
    (self' : RandomGen Src) :
  gen_next g self = (r, self') -> _seed self' = _seed self.
Proof.
  assert (Hloop : forall k, gen_loop k self = (r, self') ->
                            _seed self' = _seed self).
  { intro k. unfold gen_loop. destruct (k =? 0)%Z.
    - intro H. now injection H as _ <-.
    - destruct (__next__ self) as [[e|v] self1] eqn:Hn;
        apply next_cases in Hn as [-> _];
        intro H; now injection H as _ <-. }
  destruct g as [k|k|]; cbn [gen_next].
  - destruct (as_int k) as [z|]; [destruct (0 <? z)%Z|];
      try apply Hloop; intro H; now injection H as _ <-.
  - apply Hloop.
  - intro H. now injection H as _ <-.
Qed.

(** X22.  The stored seed is the seed applied last: the one given at
    construction, then the one of the latest assignment to [seed];
    draws, generators and [remove] do not touch it, and [remove] does not
    touch the random source. *)
Theorem seed_bookkeeping :
  (forall (fresh : Src) random_nums probabilities seed_arg rng_arg self,
      __init__ fresh random_nums probabilities seed_arg rng_arg = inr self ->
      get_seed self = seed_arg) /\
  (forall self (new_seed : Z),
      seed_setter new_seed self
      = (inr tt, mkRandomGen (seed new_seed (rng self)) (Some new_seed)
                             (nums self) (probs self) (cdf self)) /\
      get_seed (snd (seed_setter new_seed self)) = Some new_seed) /\
  (forall self r self',
      __next__ self = (r, self') -> get_seed self' = get_seed self) /\
  (forall self g r self',
      gen_next g self = (r, self') -> get_seed self' = get_seed self) /\
  (forall self value index r self',
      remove value index self = (r, self') ->
      get_seed self' = get_seed self /\ rng self' = rng self).
Proof.
  unfold get_seed. repeat split.
  - intros fresh random_nums probabilities seed_arg rng_arg self H.
    now apply init_inr in H as (_ & _ & _ & Hs & _).
  - intros self r self' H. now apply next_cases in H as [-> _].
  - intros self g r self' H. now apply gen_next_seed in H.
  - destruct (remove_cases _ _ _ _ _ H)
      as [(e & -> & ->)|(-> & _ & _ & _ & Hs & _)]; auto.
  - destruct (remove_cases _ _ _ _ _ H)
      as [(e & -> & ->)|(-> & _ & _ & Hr & _)]; auto.
Qed.

Section Reseeding.

(** The contract of reseeding: the seed alone decides the state of the
    random source. *)
Hypothesis seed_resets : forall (z : Z) (s1 s2 : Src), seed z s1 = seed z s2.

(** X23.  After any run of draws, assigning the construction seed to
    [seed] brings a seeded sampler back to the instance the construction
    returned, so the same draws come again. *)
Theorem reseed_replays (fresh : Src) (random_nums : list num)
    (probabilities : option (list Q)) (z : Z) (rng_arg : option Src)
    self (m : nat) (r : exn + list num) (self' : RandomGen Src) :
  __init__ fresh random_nums probabilities (Some z) rng_arg = inr self ->
  draws m self = (r, self') ->
  seed_setter z self' = (inr tt, self) /\
  fst (draws m (snd (seed_setter z self'))) = r.
Proof.
  intros Hi Hd.
  assert (E : seed_setter z self' = (inr tt, self)).
  { rewrite seed_setter_eq.
    apply draws_same_table in Hd as (A & B & C & D).
    apply init_inr in Hi as (_ & _ & _ & Hs & Hr & _).
    rewrite A, B, C. f_equal. destruct self as [rg sd ns ps cs].
    cbn in *. subst sd. f_equal. rewrite Hr.
    apply seed_resets. }
  split; [exact E|]. rewrite E. cbn [snd]. now rewrite Hd.
Qed.

End Reseeding.

End FurtherFacts.

(** ** The further properties at work on the concrete instances *)

Lemma spec_table_reachable : reachable spec_table.
Proof.
  apply reach_init. exact (constructed_by _ _ _ _ _ _ spec_table_init).
Qed.

Lemma spec_table_remove_zero :
  remove (Some (PyInt 0)) None spec_table
  = (inr tt, after_removal spec_table 1 0.3).
Proof. now vm_compute. Qed.

Lemma lcg_below_one : forall s : Z, fst (random s) < 1.
Proof.
  intro s. cbn. unfold Qlt. cbn.
  pose proof (Z.mod_pos_bound s modulus ltac:(reflexivity)). unfold modulus in *.
  lia.
Qed.


(** [RandomGen.from_dict({-1: 0.3, 0: 0.3, 1: 0.4}, seed=123)]. *)
Lemma from_dict_getitem_witness :
  distinct (dict_keys [(PyInt (-1), 0.3); (PyInt 0, 0.3); (PyInt 1, 0.4)]) /\
  from_dict 0%Z [(PyInt (-1), 0.3); (PyInt 0, 0.3); (PyInt 1, 0.4)]
            (Some 123%Z) None = inr spec_table /\
  nums spec_table
  = dict_keys [(PyInt (-1), 0.3); (PyInt 0, 0.3); (PyInt 1, 0.4)] /\
  probs spec_table
  = dict_values [(PyInt (-1), 0.3); (PyInt 0, 0.3); (PyInt 1, 0.4)] /\
  forall k, __getitem__ spec_table k =
            match dict_get [(PyInt (-1), 0.3); (PyInt 0, 0.3); (PyInt 1, 0.4)]
                           k with
            | Some p => inr p
            | None => inl (KeyError k)
            end.
Proof.
  assert (H1 : distinct
                 (dict_keys [(PyInt (-1), 0.3); (PyInt 0, 0.3); (PyInt 1, 0.4)]))
    by (cbn; repeat split; reflexivity).
  assert (H2 : from_dict 0%Z
                 [(PyInt (-1), 0.3); (PyInt 0, 0.3); (PyInt 1, 0.4)]
                 (Some 123%Z) None = inr spec_table) by reflexivity.
  split; [exact H1|]. split; [exact H2|].
  exact (from_dict_getitem 0%Z _ (Some 123%Z) None spec_table H1 H2).
Defined.

(** [RandomGen.from_dict({-1: 0.3, 0: 0.3, 1: 0.4})]. *)
Lemma from_dict_outcomes_witness :
  distinct (dict_keys [(PyInt (-1), 0.3); (PyInt 0, 0.3); (PyInt 1, 0.4)]) /\
  ((exists self,
       from_dict 0%Z [(PyInt (-1), 0.3); (PyInt 0, 0.3); (PyInt 1, 0.4)]
                 None None = inr self) \/
   from_dict 0%Z [(PyInt (-1), 0.3); (PyInt 0, 0.3); (PyInt 1, 0.4)]
             None None = inl InvalidProbabilityError).
Proof.
  assert (H1 : distinct
                 (dict_keys [(PyInt (-1), 0.3); (PyInt 0, 0.3); (PyInt 1, 0.4)]))
    by (cbn; repeat split; reflexivity).
  split; [exact H1|].
  exact (from_dict_outcomes 0%Z
           [(PyInt (-1), 0.3); (PyInt 0, 0.3); (PyInt 1, 0.4)] None None H1).
Defined.

(** [spec_table[1]] is [probabilities[2]]. *)
Lemma getitem_positional_witness :
  reachable spec_table /\ nth_error (nums spec_table) 2 = Some (PyInt 1) /\
  exists p, nth_error (probs spec_table) 2 = Some p /\
            __getitem__ spec_table (PyInt 1) = inr p /\ 0 < p.
Proof.
  assert (H1 : reachable spec_table) by exact spec_table_reachable.
  assert (H2 : nth_error (nums spec_table) 2 = Some (PyInt 1)) by reflexivity.
  split; [exact H1|]. split; [exact H2|].
  exact (getitem_positional spec_table 2 (PyInt 1) H1 H2).
Defined.

(** [spec_table[1.0]] and [spec_table[5]]. *)
Lemma getitem_keyerror_iff_witness :
  reachable spec_table /\
  (__getitem__ spec_table (PyInt 5) = inl (KeyError (PyInt 5)) <->
   __contains__ spec_table (PyInt 5) = false) /\
  (__contains__ spec_table (PyInt 5) = true ->
   exists p, __getitem__ spec_table (PyInt 5) = inr p /\ 0 < p /\
             forall other, num_val other == num_val (PyInt 5) ->
                           __getitem__ spec_table other = inr p).
Proof.
  assert (H1 : reachable spec_table) by exact spec_table_reachable.
  split; [exact H1|].
  exact (getitem_keyerror_iff spec_table (PyInt 5) H1).
Defined.

(** One draw from [spec_table]. *)
Lemma next_outcome_is_stored_witness :
  __next__ spec_table = (inr (PyInt (-1)), set_rng spec_table 440917656%Z) /\
  (nums (set_rng spec_table 440917656%Z) = nums spec_table /\
   probs (set_rng spec_table 440917656%Z) = probs spec_table /\
   cdf (set_rng spec_table 440917656%Z) = cdf spec_table /\
   _seed (set_rng spec_table 440917656%Z) = _seed spec_table /\
   rng (set_rng spec_table 440917656%Z) = snd (random (rng spec_table))) /\
  In (PyInt (-1)) (nums spec_table).
Proof.
  assert (H1 : __next__ spec_table
               = (inr (PyInt (-1)), set_rng spec_table 440917656%Z))
    by reflexivity.
  split; [exact H1|].
  exact (next_outcome_is_stored spec_table _ _ H1).
Defined.



(** [list(spec_table.next_k_nums(3))]. *)
Lemma next_k_nums_is_draws_witness :
  as_int (ONum (PyInt 3)) = Some 3%Z /\ (0 < 3)%Z /\ (Z.to_nat 3 < 4)%nat /\
  collect 4 (next_k_nums (ONum (PyInt 3))) spec_table
  = Some (draws (Z.to_nat 3) spec_table).
Proof.
  assert (H1 : as_int (ONum (PyInt 3)) = Some 3%Z) by reflexivity.
  assert (H2 : (0 < 3)%Z) by lia.
  assert (H3 : (Z.to_nat 3 < 4)%nat) by (cbn; lia).
  split; [exact H1|]. split; [exact H2|]. split; [exact H3|].
  exact (next_k_nums_is_draws spec_table (ONum (PyInt 3)) 3%Z 4 H1 H2 H3).
Defined.


(** [spec_table.remove(value=0)] succeeds. *)
Lemma remove_succeeds_iff_witness :
  table_ok spec_table /\
  ((exists self', remove (Some (PyInt 0)) None spec_table = (inr tt, self')) <->
   valid_selector spec_table (Some (PyInt 0)) None /\
   (2 <= length (nums spec_table))%nat).
Proof.
  assert (H1 : table_ok spec_table) by exact spec_table_ok.
  split; [exact H1|].
  exact (remove_succeeds_iff spec_table (Some (PyInt 0)) None H1).
Defined.

(** [spec_table.remove(index=1)] and [spec_table.remove(value=0)]. *)
Lemma remove_index_value_agree_witness :
  table_ok spec_table /\
  norm_index (length (nums spec_table)) 1 = Some 1%nat /\
  nth_error (nums spec_table) 1 = Some (PyInt 0) /\
  remove None (Some 1%Z) spec_table = remove (Some (PyInt 0)) None spec_table.
Proof.
  assert (H1 : table_ok spec_table) by exact spec_table_ok.
  assert (H2 : norm_index (length (nums spec_table)) 1 = Some 1%nat)
    by reflexivity.
  assert (H3 : nth_error (nums spec_table) 1 = Some (PyInt 0)) by reflexivity.
  split; [exact H1|]. split; [exact H2|]. split; [exact H3|].
  exact (remove_index_value_agree spec_table 1%Z 1%nat (PyInt 0) H1 H2 H3).
Defined.

(** [spec_table.remove(index=-1)] and [spec_table.remove(index=2)]. *)
Lemma remove_negative_index_witness :
  table_ok spec_table /\
  (- len (nums spec_table) <= -1 < 0)%Z /\
  remove None (Some (-1)%Z) spec_table
  = remove None (Some (-1 + len (nums spec_table))%Z) spec_table.
Proof.
  assert (H1 : table_ok spec_table) by exact spec_table_ok.
  assert (H2 : (- len (nums spec_table) <= -1 < 0)%Z) by (cbn; lia).
  split; [exact H1|]. split; [exact H2|].
  exact (remove_negative_index spec_table (-1)%Z H1 H2).
Defined.


(** Membership after [spec_table.remove(value=0)]. *)
Lemma remove_membership_witness :
  table_ok spec_table /\
  remove (Some (PyInt 0)) None spec_table
  = (inr tt, after_removal spec_table 1 0.3) /\
  selected_position spec_table (Some (PyInt 0)) None = Some 1%nat /\
  nth_error (nums spec_table) 1 = Some (PyInt 0) /\
  __contains__ (after_removal spec_table 1 0.3) (PyInt 0) = false /\
  __getitem__ (after_removal spec_table 1 0.3) (PyInt 0)
  = inl (KeyError (PyInt 0)) /\
  forall w, __contains__ (after_removal spec_table 1 0.3) w
            = __contains__ spec_table w && negb (num_eqb w (PyInt 0)).
Proof.
  assert (H1 : table_ok spec_table) by exact spec_table_ok.
  assert (H3 : selected_position spec_table (Some (PyInt 0)) None = Some 1%nat)
    by reflexivity.
  assert (H4 : nth_error (nums spec_table) 1 = Some (PyInt 0)) by reflexivity.
  split; [exact H1|]. split; [exact spec_table_remove_zero|].
  split; [exact H3|]. split; [exact H4|].
  exact (remove_membership spec_table (Some (PyInt 0)) None _ 1%nat (PyInt 0)
                           H1 spec_table_remove_zero H3 H4).
Defined.

(** A draw after [spec_table.remove(value=0)]. *)
Lemma draw_after_remove_witness :
  table_ok spec_table /\
  remove (Some (PyInt 0)) None spec_table
  = (inr tt, after_removal spec_table 1 0.3) /\
  selected_position spec_table (Some (PyInt 0)) None = Some 1%nat /\
  nth_error (nums spec_table) 1 = Some (PyInt 0) /\
  __next__ (after_removal spec_table 1 0.3)
  = (inr (PyInt (-1)), set_rng (after_removal spec_table 1 0.3) 440917656%Z) /\
  In (PyInt (-1)) (nums spec_table) /\ num_eqb (PyInt (-1)) (PyInt 0) = false.
Proof.
  assert (H1 : table_ok spec_table) by exact spec_table_ok.
  assert (H3 : selected_position spec_table (Some (PyInt 0)) None = Some 1%nat)
    by reflexivity.
  assert (H4 : nth_error (nums spec_table) 1 = Some (PyInt 0)) by reflexivity.
  assert (H5 : __next__ (after_removal spec_table 1 0.3)
               = (inr (PyInt (-1)),
                  set_rng (after_removal spec_table 1 0.3) 440917656%Z))
    by reflexivity.
  split; [exact H1|]. split; [exact spec_table_remove_zero|].
  split; [exact H3|]. split; [exact H4|]. split; [exact H5|].
  exact (draw_after_remove spec_table (Some (PyInt 0)) None _ 1%nat (PyInt 0)
                           (PyInt (-1)) _ H1 spec_table_remove_zero H3 H4 H5).
Defined.

(** Five draws from [spec_table], then [seed = 123]. *)
Lemma reseed_replays_witness :
  (forall (z : Z) (s1 s2 : Z), seed z s1 = seed z s2) /\
  __init__ 0%Z [PyInt (-1); PyInt 0; PyInt 1] (Some [0.3; 0.3; 0.4])
           (Some 123%Z) None = inr spec_table /\
  draws 5 spec_table = (fst (draws 5 spec_table), snd (draws 5 spec_table)) /\
  seed_setter 123 (snd (draws 5 spec_table)) = (inr tt, spec_table) /\
  fst (draws 5 (snd (seed_setter 123 (snd (draws 5 spec_table)))))
  = fst (draws 5 spec_table).
Proof.
  assert (H0 : forall (z : Z) (s1 s2 : Z), seed z s1 = seed z s2)
    by (intros; reflexivity).
  assert (H2 : draws 5 spec_table
               = (fst (draws 5 spec_table), snd (draws 5 spec_table)))
    by apply surjective_pairing.
  split; [exact H0|]. split; [exact spec_table_init|]. split; [exact H2|].
  exact (reseed_replays H0 0%Z _ _ 123%Z None spec_table 5 _ _
                        spec_table_init H2).
Defined.

(** [next_k_nums(2)] and then [next_k_nums(3)] on [spec_table]. *)
Lemma next_k_nums_runs_compose_witness :
  (0 < 2)%nat /\ (0 < 3)%nat /\
  collect (S (2 + 3))
          (next_k_nums (ONum (PyInt (Z.of_nat (2 + 3))))) spec_table
  = match collect (S 2) (next_k_nums (ONum (PyInt (Z.of_nat 2))))
                  spec_table with
    | Some (inr l1, self1) =>
        match collect (S 3) (next_k_nums (ONum (PyInt (Z.of_nat 3))))
                      self1 with
        | Some (inr l2, self2) => Some (inr (l1 ++ l2)%list, self2)
        | Some (inl e, self2) => Some (inl e, self2)
        | None => None
        end
    | Some (inl e, self1) => Some (inl e, self1)
    | None => None
    end.
Proof.
  assert (H1 : (0 < 2)%nat) by lia.
  assert (H2 : (0 < 3)%nat) by lia.
  split; [exact H1|]. split; [exact H2|].
  exact (next_k_nums_runs_compose 2 3 spec_table H1 H2).
Defined.


(** ** Rounded arithmetic on the concrete instances *)

Lemma spec_table64_aligned : aligned spec_table64.
Proof.
  split; [|reflexivity].
  cbn [spec_table64 nums distinct]. repeat split; reflexivity.
Qed.

Lemma spec_table64_remove_zero :
  remove_r binary64 (Some (PyInt 0)) None spec_table64
  = (inr tt, after_removal_r binary64 spec_table64 1 (binary64 0.3)).
Proof. now vm_compute. Qed.

(** C2, as stated, fails on its own example.  In the arithmetic of the
    machine, removing [0] from [[-1, 0, 1]] with probabilities
    [[0.3, 0.3, 0.4]] leaves the probabilities
    [[0.44999999999999996, 0.55]]: they are not the doubles
    [[0.45, 0.55]], nor the numbers [0.45] and [0.55], and the first
    exceeds its old value by less than [p_removed / (n_prev - 1)]. *)
Lemma remove_example_not_exact :
  remove_r binary64 (Some (PyInt 0)) None spec_table64
  = (inr tt, after_removal_r binary64 spec_table64 1 (binary64 0.3)) /\
  nth_error (probs spec_table64) 1 = Some (binary64 0.3) /\
  Forall2 Qeq (probs (after_removal_r binary64 spec_table64 1 (binary64 0.3)))
          [binary64 0.44999999999999996; binary64 0.55] /\
  ~ nth 0 (probs (after_removal_r binary64 spec_table64 1 (binary64 0.3))) 0
    == binary64 0.45 /\
  ~ nth 0 (probs (after_removal_r binary64 spec_table64 1 (binary64 0.3))) 0
    == 0.45 /\
  ~ nth 0 (probs (after_removal_r binary64 spec_table64 1 (binary64 0.3))) 0
    == nth 0 (probs spec_table64) 0
       + binary64 0.3 / inject_Z (len (nums spec_table64) - 1).
Proof.
  split; [exact spec_table64_remove_zero|]. split; [reflexivity|].
  split; [repeat constructor; vm_compute; reflexivity|].
  repeat split; intro H; vm_compute in H; discriminate.
Qed.

(** Removing the value [0] from [spec_table64] in the arithmetic of the
    machine. *)
Lemma remove_redistributes_rounded_shares_witness :
  aligned spec_table64 /\ (2 <= length (nums spec_table64))%nat /\
  valid_selector spec_table64 (Some (PyInt 0)) None /\
  exists (k : nat) (removed : num) (p_removed : Q) (self' : RandomGen Z),
    let share :=
      binary64 (p_removed / inject_Z (len (nums spec_table64) - 1)) in
    remove_r binary64 (Some (PyInt 0)) None spec_table64 = (inr tt, self') /\
    selected_position spec_table64 (Some (PyInt 0)) None = Some k /\
    nth_error (nums spec_table64) k = Some removed /\
    nth_error (probs spec_table64) k = Some p_removed /\
    nums self' = remove_at k (nums spec_table64) /\
    probs self' = map (fun p => binary64 (p + share))
                      (remove_at k (probs spec_table64)) /\
    cdf self' = cumsum_r binary64 (probs self') /\
    forall w, __contains__ self' w = true ->
      exists p, __getitem__ spec_table64 w = inr p /\
                __getitem__ self' w = inr (binary64 (p + share)).
Proof.
  assert (H1 : aligned spec_table64) by exact spec_table64_aligned.
  assert (H2 : (2 <= length (nums spec_table64))%nat)
    by (cbn [spec_table64 nums length]; lia).
  assert (H3 : valid_selector spec_table64 (Some (PyInt 0)) None)
    by reflexivity.
  split; [exact H1|]. split; [exact H2|]. split; [exact H3|].
  exact (proj1 remove_redistributes_rounded_shares binary64 spec_table64
               (Some (PyInt 0)) None H1 H2 H3).
Defined.

(** The rejection case of the tests:
    [RandomGen([-1, 0, 1], [-0.1, 1.1, 0.0])]. *)
Lemma init_out_of_range_probability_witness :
  [PyInt (-1); PyInt 0; PyInt 1] <> [] /\
  distinct [PyInt (-1); PyInt 0; PyInt 1] /\
  length [(-0.1); 1.1; 0.0] = length [PyInt (-1); PyInt 0; PyInt 1] /\
  Exists (fun q => q <= 0 \/ 1 < q) [(-0.1); 1.1; 0.0] /\
  __init__ 0%Z [PyInt (-1); PyInt 0; PyInt 1] (Some [(-0.1); 1.1; 0.0])
           None None = inl InvalidProbabilityError.
Proof.
  assert (H1 : [PyInt (-1); PyInt 0; PyInt 1] <> []) by discriminate.
  assert (H2 : distinct [PyInt (-1); PyInt 0; PyInt 1])
    by (cbn; repeat split; reflexivity).
  assert (H3 : length [(-0.1); 1.1; 0.0]
               = length [PyInt (-1); PyInt 0; PyInt 1]) by reflexivity.
  assert (H4 : Exists (fun q => q <= 0 \/ 1 < q) [(-0.1); 1.1; 0.0])
    by (apply Exists_cons_hd; left; vm_compute; discriminate).
  split; [exact H1|]. split; [exact H2|]. split; [exact H3|].
  split; [exact H4|].
  exact (init_out_of_range_probability 0%Z _ (-0.1) [1.1; 0.0] None None
                                       H1 H2 H3 H4).
Defined.

(** [RandomGen([10, 20], rng=source)]: no probabilities. *)
Lemma init_default_equal_probabilities_witness :
  (@None (list Q) = None \/ @None (list Q) = Some []) /\
  __init__ 0%Z [PyInt 10; PyInt 20] None None (Some 1073741824%Z)
  = inr tie_table /\
  exists p, (0 < p /\ p <= 1) /\
            probs tie_table = repeat p (length [PyInt 10; PyInt 20]) /\
            forall v, In v [PyInt 10; PyInt 20] ->
                      __getitem__ tie_table v = inr p.
Proof.
  assert (H1 : @None (list Q) = None \/ @None (list Q) = Some [])
    by (left; reflexivity).
  split; [exact H1|]. split; [exact tie_table_init|].
  exact (init_default_equal_probabilities 0%Z _ None None
           (Some 1073741824%Z) tie_table H1 tie_table_init).
Defined.

(** The draw [1/2] on [tie_table] selects the first value. *)
Lemma next_selects_interval_witness :
  nondecreasing (cdf tie_table) /\
  length (cdf tie_table) = length (nums tie_table) /\
  distinct (nums tie_table) /\
  random (rng tie_table) = (1073741824 # 2147483648, 1073754169%Z) /\
  nth_error (nums tie_table) 0 = Some (PyInt 10) /\
  (fst (__next__ tie_table) = inr (PyInt 10) <->
   first_index_ge (cdf tie_table) (1073741824 # 2147483648) 0).
Proof.
  assert (H1 : nondecreasing (cdf tie_table))
    by exact (proj1 (table_ok_cdf tie_table tie_table_ok)).
  assert (H2 : length (cdf tie_table) = length (nums tie_table))
    by reflexivity.
  assert (H3 : distinct (nums tie_table))
    by (cbn; repeat split; reflexivity).
  assert (H4 : random (rng tie_table)
               = (1073741824 # 2147483648, 1073754169%Z)) by reflexivity.
  assert (H5 : nth_error (nums tie_table) 0 = Some (PyInt 10)) by reflexivity.
  split; [exact H1|]. split; [exact H2|]. split; [exact H3|].
  split; [exact H4|]. split; [exact H5|].
  exact (next_selects_interval tie_table _ _ 0%nat (PyInt 10)
                               H1 H2 H3 H4 H5).
Defined.

(** Five draws from [spec_table] with the congruential source. *)
Lemma draws_never_fail_witness :
  (forall s : Z, fst (random s) < 1) /\
  nondecreasing (cdf spec_table) /\
  length (cdf spec_table) = length (nums spec_table) /\
  1 <= last (cdf spec_table) 0 /\
  exists (l : list num) (self' : RandomGen Z),
    draws 5 (__iter__ spec_table) = (inr l, self') /\
    length l = 5%nat /\ Forall (fun v => In v (nums spec_table)) l.
Proof.
  assert (H1 : nondecreasing (cdf spec_table))
    by exact (proj1 (table_ok_cdf spec_table spec_table_ok)).
  assert (H2 : length (cdf spec_table) = length (nums spec_table))
    by reflexivity.
  assert (H3 : 1 <= last (cdf spec_table) 0) by (vm_compute; discriminate).
  split; [exact lcg_below_one|]. split; [exact H1|]. split; [exact H2|].
  split; [exact H3|].
  exact (draws_never_fail lcg_below_one 5 spec_table H1 H2 H3).
Defined.

(** The lengths after [remove(value=0)] on [spec_table64]. *)
Lemma remove_shortens_by_one_witness :
  aligned spec_table64 /\
  remove_r binary64 (Some (PyInt 0)) None spec_table64
  = (inr tt, after_removal_r binary64 spec_table64 1 (binary64 0.3)) /\
  S (length (nums (after_removal_r binary64 spec_table64 1 (binary64 0.3))))
  = length (nums spec_table64) /\
  distinct (nums (after_removal_r binary64 spec_table64 1 (binary64 0.3))) /\
  length (probs (after_removal_r binary64 spec_table64 1 (binary64 0.3)))
  = length (nums (after_removal_r binary64 spec_table64 1 (binary64 0.3))) /\
  length (cdf (after_removal_r binary64 spec_table64 1 (binary64 0.3)))
  = length (nums (after_removal_r binary64 spec_table64 1 (binary64 0.3))).
Proof.
  split; [exact spec_table64_aligned|].
  split; [exact spec_table64_remove_zero|].
  exact (remove_shortens_by_one binary64 spec_table64 (Some (PyInt 0)) None _
           spec_table64_aligned spec_table64_remove_zero).
Defined.

(** [RandomGen([10, 20], rng=source).remove(index=0)] in the arithmetic
    of the machine. *)
Lemma remove_keeps_equal_probabilities_witness :
  aligned tie_table /\
  Forall (fun p => p = 1 / inject_Z 2) (probs tie_table) /\
  remove_r binary64 None (Some 0%Z) tie_table
  = (inr tt, after_removal_r binary64 tie_table 0 (1 / inject_Z 2)) /\
  Forall (fun p => p = binary64 (1 / inject_Z 2
                                 + binary64 ((1 / inject_Z 2)
                                   / inject_Z (len (nums tie_table) - 1))))
         (probs (after_removal_r binary64 tie_table 0 (1 / inject_Z 2))).
Proof.
  assert (H1 : aligned tie_table)
    by (split; [cbn; repeat split; reflexivity|reflexivity]).
  assert (H2 : Forall (fun p => p = 1 / inject_Z 2) (probs tie_table))
    by (repeat constructor).
  assert (H3 : remove_r binary64 None (Some 0%Z) tie_table
               = (inr tt, after_removal_r binary64 tie_table 0
                                          (1 / inject_Z 2)))
    by now vm_compute.
  split; [exact H1|]. split; [exact H2|]. split; [exact H3|].
  exact (remove_keeps_equal_probabilities binary64 tie_table (1 / inject_Z 2)
           None (Some 0%Z) _ H1 H2 H3).
Defined.
